(** * TeachGPT model server: the document embedding pipeline

    A shallow embedding of [model_server/embedding/embed.py] (class
    [Embedder]) together with the [Document] and [Course] tables of
    [model_server/database/database_models.py].

    Python values are modelled as follows.
    - [str] is [string]; one [ascii] stands for one character.  Slicing
      ([s[:8]], [s[8:]], [s[-4:]]) follows CPython's index adjustment for a
      slice of step 1.
    - [float] is the primitive binary64 [float]; [d < 1.0] is [PrimFloat.ltb].
    - An exception is a distinguished result ([None], [Raised], [Failed]):
      the state reached before the exception is kept, since nothing in the
      source rolls anything back.
    - The services the class calls but does not define (the extraction
      algorithms of [.util], the text splitter, the embedding function of the
      vector store, [uuid4], [datetime.now], [os.getcwd]) are the fields of an
      environment record [Env]; every theorem holds for every environment. *)

From Stdlib Require Import String Ascii List ZArith Lia Bool Arith.
From Stdlib Require Import DecimalString DecimalNat.
From Stdlib Require Import Floats.PrimFloat.
Import ListNotations.

Local Open Scope list_scope.
Local Open Scope string_scope.

(** ** Python strings *)

Module PyStr.

Definition chars (s : string) : list ascii := list_ascii_of_string s.

(** [len(s)] *)
Definition len (s : string) : Z := Z.of_nat (String.length s).

(** Index adjustment of a slice bound, step 1: a negative bound counts
    from the end, and every bound is clamped to [0 .. len]. *)
Definition adjust_index (n i : Z) : Z :=
  if (i <? 0)%Z then Z.max 0 (i + n) else Z.min i n.

(** [s[start:stop]]; an omitted bound is [None]. *)
Definition slice (s : string) (start stop : option Z) : string :=
  let n := len s in
  let lo := match start with None => 0%Z | Some i => adjust_index n i end in
  let hi := match stop with None => n | Some j => adjust_index n j end in
  substring (Z.to_nat lo) (Z.to_nat (hi - lo)) s.

(** [str(n)] for a non-negative integer. *)
Definition str_of_nat (n : nat) : string :=
  NilEmpty.string_of_uint (Nat.to_uint n).

(** [b.startswith("/")] and [path.endswith("/")] *)
Definition startswith_sep (b : string) : bool :=
  match b with
  | String c _ => Ascii.eqb c "/"%char
  | EmptyString => false
  end.

Fixpoint endswith_sep (p : string) : bool :=
  match p with
  | EmptyString => false
  | String c EmptyString => Ascii.eqb c "/"%char
  | String _ rest => endswith_sep rest
  end.

(** [os.path.join(a, *p)] of [posixpath]. *)
Definition join_step (path b : string) : string :=
  if startswith_sep b then b
  else if orb (String.eqb path "") (endswith_sep path) then path ++ b
  else path ++ "/" ++ b.

Definition os_path_join (a : string) (p : list string) : string :=
  fold_left join_step p a.

(** The string has no path separator. *)
Definition no_sep (s : string) : Prop := ~ In "/"%char (chars s).

End PyStr.

(** ** Uploaded files and the per-file dictionary *)

(** [UploadFile]: the client's file name and the bytes of the upload. *)
Record UploadFile := mkUploadFile {
  filename : string;
  file_bytes : string
}.

(** [result_dict]: keys ["filename"] and ["course_code"] from the start,
    ["content"] once extraction has returned. *)
Record ResultDict := mkResultDict {
  rd_filename : string;
  rd_course_code : string;
  rd_content : option string
}.

(** Lines 133-136 of [embed_file]. *)
Definition new_result_dict (file : UploadFile) : ResultDict :=
  {| rd_filename := PyStr.slice (filename file) (Some 8%Z) None;
     rd_course_code := PyStr.slice (filename file) None (Some 8%Z);
     rd_content := None |}.

Definition set_content (rd : ResultDict) (result : string) : ResultDict :=
  {| rd_filename := rd_filename rd;
     rd_course_code := rd_course_code rd;
     rd_content := Some result |}.

(** ** The relational registry: table [documents] *)

(** Class [User] of [database_models.py]; [created_at] is a timestamp. *)
Record User := mkUser {
  u_name : string;
  u_id : string;
  u_created_at : Z;
  u_email : string;
  u_gender : string;
  u_hashed_password : string;
  u_department : string;
  u_year : string
}.

(** Class [Document] of [database_models.py]. *)
Record Document := mkDocument {
  doc_id : string;
  added_at : Z;
  user_id : string;
  course_code : string;
  document_name : string
}.

Module Registry.

(** Modelled from the spec: the SQLAlchemy session ([database.py]) and its
    engine are not part of the sources; section 4.3 gives the interface
    the pipeline consumes ([Exists], [Insert], [DeleteByName]).  The table
    is the list of its rows in insertion order. *)
Definition t := list Document.

(** Modelled from the spec: [Exists(courseCode, filename)], the query
    [db.query(Document).filter(Document.course_code == c)
        .filter(Document.document_name == n).first()]; column equality is
    string equality. *)
Definition first_match (db : t) (c n : string) : option Document :=
  hd_error
    (filter (fun d => String.eqb (document_name d) n)
       (filter (fun d => String.eqb (course_code d) c) db)).

(** Modelled from the spec: [Insert(documentRecord)] when it succeeds,
    [db.add(doc); db.commit()]. *)
Definition insert (db : t) (doc : Document) : t := (db ++ [doc])%list.

(** Modelled from the spec: [DeleteByName(filename)],
    [db.query(Document).filter(Document.document_name == n).delete();
     db.commit()]. *)
Definition delete_by_name (db : t) (n : string) : t :=
  filter (fun d => negb (String.eqb (document_name d) n)) db.

(** Modelled from the spec: [ListByCourse(courseCode)],
    [db.query(Document).filter(Document.course_code == c).all()], in
    insertion order. *)
Definition all_by_course (db : t) (c : string) : list Document :=
  filter (fun d => String.eqb (course_code d) c) db.

End Registry.

(** ** Table [courses] *)

(** Class [Course] of [database_models.py]: [id] is the primary key and
    [subject_name] is declared [unique=True]. *)
Record Course := mkCourse {
  course_id : string;
  subject_name : string
}.

Module Courses.

(** The rows of the table in insertion order.  The session [db] of the
    course endpoints is this table next to the table of documents. *)
Definition t := list Course.

(** [db.query(Course).filter(Course.subject_name == s).first()] *)
Definition first_by_subject (cs : t) (s : string) : option Course :=
  hd_error (filter (fun c => String.eqb (subject_name c) s) cs).

(** A row that breaks the primary key on [id] or the unique constraint on
    [subject_name] against the rows present. *)
Definition violates (cs : t) (c : Course) : bool :=
  existsb (fun x => orb (String.eqb (course_id x) (course_id c))
                        (String.eqb (subject_name x) (subject_name c))) cs.

(** [db.add(c); db.commit()]: the commit raises [IntegrityError] on a row
    that breaks a constraint of the table, and stores the row otherwise. *)
Definition insert (cs : t) (c : Course) : option t :=
  if violates cs c then None else Some (cs ++ [c])%list.

End Courses.

(** ** The vector store: one Chroma collection *)

Record Metadata := mkMetadata {
  source : string;
  md_course_code : string
}.

Record Entry := mkEntry {
  entry_id : string;
  entry_document : string;
  entry_metadata : Metadata
}.

(** The dictionary [collection.query] returns: one inner list per query
    text under each key. *)
Record QueryResult := mkQueryResult {
  qr_ids : list (list string);
  qr_distances : list (list float);
  qr_documents : list (list string);
  qr_metadatas : list (list Metadata)
}.

Module Chroma.

(** Modelled from the spec: chromadb is not part of the sources; section
    4.2 gives the contract of the vector store.  The collection is the
    list of its entries. *)
Definition t := list Entry.

(** The three parallel lists handed to [collection.add]. *)
Fixpoint zip_entries (ids documents : list string) (metadatas : list Metadata)
  : list Entry :=
  match ids, documents, metadatas with
  | i :: ids', d :: documents', m :: metadatas' =>
      mkEntry i d m :: zip_entries ids' documents' metadatas'
  | _, _, _ => []
  end.

Definition has_id (batch : list Entry) (i : string) : bool :=
  existsb (fun e => String.eqb (entry_id e) i) batch.

(** Modelled from the spec: [Add] when it succeeds stores the whole batch;
    re-adding an identical id overwrites. *)
Definition add (coll : t) (batch : list Entry) : t :=
  (filter (fun e => negb (has_id batch (entry_id e))) coll ++ batch)%list.

(** Modelled from the spec: [DeleteBySource(filename)] deletes all entries
    whose [source] metadata equals the name, regardless of course, and
    does not raise when none matches;
    [collection.delete(where={"source": doc_name})]. *)
Definition delete_where_source (coll : t) (doc_name : string) : t :=
  filter (fun e => negb (String.eqb (source (entry_metadata e)) doc_name)) coll.

Section Query.

(** Distance between the embeddings of a query text and of a stored
    document. *)
Variable distance : string -> string -> float.

Fixpoint insert_by_distance (q : string) (e : Entry) (sorted : list Entry)
  : list Entry :=
  match sorted with
  | [] => [e]
  | x :: rest =>
      if PrimFloat.leb (distance q (entry_document e))
                       (distance q (entry_document x))
      then e :: sorted
      else x :: insert_by_distance q e rest
  end.

Definition sort_by_distance (q : string) (l : list Entry) : list Entry :=
  fold_right (insert_by_distance q) [] l.

(** Entries of the course scope. *)
Definition scope (coll : t) (course : string) : list Entry :=
  filter (fun e => String.eqb (md_course_code (entry_metadata e)) course) coll.

(** Modelled from the spec: [Query(text, courseScope, limit)] restricts
    the search to the entries of the course and returns up to [limit] of
    them by ascending distance; an empty scope gives no entry. *)
Definition nearest (coll : t) (q : string) (n_results : nat) (course : string)
  : list Entry :=
  firstn n_results (sort_by_distance q (scope coll course)).

(** Modelled from the spec: the dictionary returned by
    [collection.query(query_texts=.., n_results=.., where={"course_code": ..})],
    its four keys aligned. *)
Definition query (coll : t) (query_texts : list string) (n_results : nat)
           (course : string) : QueryResult :=
  let hits q := nearest coll q n_results course in
  {| qr_ids := map (fun q => map entry_id (hits q)) query_texts;
     qr_distances :=
       map (fun q => map (fun e => distance q (entry_document e)) (hits q))
           query_texts;
     qr_documents := map (fun q => map entry_document (hits q)) query_texts;
     qr_metadatas := map (fun q => map entry_metadata (hits q)) query_texts |}.

End Query.

End Chroma.

(** ** The file system under [ROOT_DIR] *)

Module Disk.

(** The paths of the regular files that exist. *)
Definition t := list string.

Definition exists_file (d : t) (path : string) : bool :=
  existsb (String.eqb path) d.

(** [os.remove(path)]: raises [FileNotFoundError] when there is no such
    file. *)
Definition remove (d : t) (path : string) : option t :=
  if exists_file d path
  then Some (filter (fun p => negb (String.eqb path p)) d)
  else None.

End Disk.

(** ** Environment and state *)

(** What the class calls and does not define.  Modelled from the spec: the
    extraction algorithms of [util.py] are not part of the sources; each is
    a black-box function from the upload to plain text, [None] when it
    raises.  [split_text size overlap] stands for the text splitter built
    with these two settings.  [collection_add_raises] and
    [db_commit_raises] say when the vector store refuses a batch and when
    the registry refuses a row (section 4.2: the caller is informed;
    section 4.3: [Insert] reports success or failure).  [uuid4] and
    [datetime_now] are indexed by the number of rows built so far. *)
Record Env := mkEnv {
  pdf_extraction_alg : UploadFile -> option string;
  pptx_extraction_alg : UploadFile -> option string;
  split_text : nat -> nat -> string -> list string;
  embedding_distance : string -> string -> float;
  collection_add_raises : Chroma.t -> list Entry -> bool;
  db_commit_raises : Registry.t -> Document -> bool;
  uuid4 : nat -> string;
  datetime_now : nat -> Z;
  ROOT_DIR : string
}.

(** [self._collection], the session [db], the file system, and the number
    of [Document] rows built so far. *)
Record State := mkState {
  collection : Chroma.t;
  db : Registry.t;
  disk : Disk.t;
  clock : nat
}.

Definition set_collection (st : State) (c : Chroma.t) : State :=
  mkState c (db st) (disk st) (clock st).

Definition set_db (st : State) (r : Registry.t) : State :=
  mkState (collection st) r (disk st) (clock st).

Definition set_disk (st : State) (d : Disk.t) : State :=
  mkState (collection st) (db st) d (clock st).

Definition tick (st : State) : State :=
  mkState (collection st) (db st) (disk st) (S (clock st)).

(** Responses of the upload endpoint. *)
Inductive Response :=
| HTTPErrorResponse (detail : string)
| ExtractionResult (results : string).

(** How a call that may raise ends; the state it reached is kept. *)
Inductive Completion :=
| Normal (st : State)
| Raised (st : State).

(** How the body of the loop of [embed_file] ends for one file: it falls
    through to [result_list.append] (Accepted), it returns from the whole
    function at line 160 (Rejected-Duplicate), or it lands in the [except]
    clause (Failed). *)
Inductive Outcome :=
| Accepted (result_dict : ResultDict) (st : State)
| RejectedDuplicate (response : Response) (st : State)
| Failed (st : State).

(** ** Requests and responses of the course and document endpoints *)

(** The fields the endpoints read from the request models of [.model]. *)
Record AddSubjectParams := mkAddSubjectParams {
  asp_course_code : string;
  asp_subject_name : string
}.

Record GetCourseParams := mkGetCourseParams {
  gcp_subject_name : string
}.

Record DocumentListParams := mkDocumentListParams {
  dlp_subject : string
}.

(** [ReturnDocumentList(documents=.., course_code=..)] *)
Record ReturnDocumentList := mkReturnDocumentList {
  rdl_documents : list Document;
  rdl_course_code : string
}.

(** [FileResponse(path, media_type=..)] *)
Record FileResponse := mkFileResponse {
  fr_path : string;
  fr_media_type : string
}.

(** ** Class [Embedder] *)

Module Embedder.

Section WithEnv.

Variable E : Env.

(** Lines 139-147: the extraction branch of [embed_file]. *)
Definition extract (file : UploadFile) : option string :=
  if String.eqb (PyStr.slice (filename file) (Some (-4)%Z) None) ".pdf"
  then pdf_extraction_alg E file
  else if String.eqb (PyStr.slice (filename file) (Some (-5)%Z) None) ".pptx"
  then pptx_extraction_alg E file
  else Some "".

(** The identifiers of a batch: [f"{course_code}-{filename}-" + str(i)]
    for [i] in [range(len(docs))]. *)
Definition chunk_ids (extracted : ResultDict) (docs : list string)
  : list string :=
  map (fun i => (rd_course_code extracted ++ "-" ++ rd_filename extracted
                 ++ "-") ++ PyStr.str_of_nat i)
      (seq 0 (List.length docs)).

Definition chunk_metadatas (extracted : ResultDict) (docs : list string)
  : list Metadata :=
  map (fun _ => {| source := rd_filename extracted;
                   md_course_code := rd_course_code extracted |}) docs.

(** The arguments of [self._collection.add] for a content: the chunks of
    the splitter built with [chunk_size=800] and [chunk_overlap=200], their
    metadata and their identifiers. *)
Definition chunk_batch (extracted : ResultDict) (content : string)
  : list Entry :=
  let docs := split_text E 800 200 content in
  Chroma.zip_entries (chunk_ids extracted docs) docs
                     (chunk_metadatas extracted docs).

(** [add_document(self, extracted, db, user)]; a missing ["content"] key
    is a [KeyError]. *)
Definition add_document (st : State) (extracted : ResultDict) (user : User)
  : Completion :=
  match rd_content extracted with
  | None => Raised st
  | Some content =>
      let batch := chunk_batch extracted content in
      if collection_add_raises E (collection st) batch then Raised st
      else
        let st1 := set_collection st (Chroma.add (collection st) batch) in
        let row :=
          {| doc_id := uuid4 E (clock st1);
             added_at := datetime_now E (clock st1);
             user_id := u_id user;
             course_code := rd_course_code extracted;
             document_name := rd_filename extracted |} in
        let st2 := tick st1 in
        if db_commit_raises E (db st2) row then Raised st2
        else Normal (set_db st2 (Registry.insert (db st2) row))
  end.

(** Lines 133-170: the body of the loop of [embed_file] for one file. *)
Definition embed_one (user : User) (st : State) (file : UploadFile)
  : Outcome :=
  let result_dict := new_result_dict file in
  match extract file with
  | None => Failed st
  | Some result =>
      let result_dict := set_content result_dict result in
      let check_embeddings :=
        Registry.first_match (db st) (rd_course_code result_dict)
                             (rd_filename result_dict) in
      match check_embeddings with
      | Some _ =>
          RejectedDuplicate (HTTPErrorResponse "Embedding present") st
      | None =>
          match add_document st result_dict user with
          | Normal st' => Accepted result_dict st'
          | Raised st' => Failed st'
          end
      end
  end.

(** The loop of [embed_file] with its accumulator [result_list]. *)
Fixpoint embed_loop (user : User) (files : list UploadFile)
         (result_list : list ResultDict) (st : State) : Response * State :=
  match files with
  | [] =>
      (ExtractionResult
         (PyStr.str_of_nat (List.length result_list)
          ++ " files added to vectorstore."), st)
  | file :: rest =>
      match embed_one user st file with
      | Accepted result_dict st' =>
          embed_loop user rest (result_list ++ [result_dict])%list st'
      | RejectedDuplicate response st' => (response, st')
      | Failed st' => embed_loop user rest result_list st'
      end
  end.

(** [embed_file(self, files, user, db)] *)
Definition embed_file (files : list UploadFile) (user : User) (st : State)
  : Response * State :=
  embed_loop user files [] st.

(** [delete_document_from_vectorstore(self, doc_name)] *)
Definition delete_document_from_vectorstore (st : State) (doc_name : string)
  : State :=
  set_collection st (Chroma.delete_where_source (collection st) doc_name).

(** [query(self, message, course_id)]; [None] stands for an
    [IndexError] on one of the subscripts. *)
Definition query (st : State) (message course_id : string)
  : option (string * string) :=
  let results :=
    Chroma.query (embedding_distance E) (collection st) [message] 1 course_id in
  match nth_error (qr_distances results) 0 with
  | None => None
  | Some distances0 =>
      if negb (Nat.eqb (List.length distances0) 0) then
        match nth_error distances0 0 with
        | None => None
        | Some d =>
            if PrimFloat.ltb d 1%float then
              match nth_error (qr_documents results) 0,
                    nth_error (qr_metadatas results) 0 with
              | Some documents0, Some metadatas0 =>
                  match nth_error documents0 0, nth_error metadatas0 0 with
                  | Some doc, Some md => Some (doc, source md)
                  | _, _ => None
                  end
              | _, _ => None
              end
            else Some ("", "")
        end
      else Some ("", "")
  end.

(** The path [os.path.join(ROOT_DIR, "documents", course_code, filename)]. *)
Definition document_path (course filename : string) : string :=
  PyStr.os_path_join (ROOT_DIR E) ["documents"; course; filename].

(** [delete_document(self, course_code, filename, db)] *)
Definition delete_document (st : State) (course filename : string)
  : string * State :=
  let st1 := set_db st (Registry.delete_by_name (db st) filename) in
  let st2 := delete_document_from_vectorstore st1 filename in
  let path := document_path course filename in
  match Disk.remove (disk st2) path with
  | Some d => ("success", set_disk st2 d)
  | None => ("failed", st2)
  end.

(** *** The per-file state machine of a batch *)

Definition state_after (o : Outcome) : State :=
  match o with
  | Accepted _ st => st
  | RejectedDuplicate _ st => st
  | Failed st => st
  end.

Definition is_accepted (o : Outcome) : bool :=
  match o with Accepted _ _ => true | _ => false end.

Definition is_duplicate (o : Outcome) : bool :=
  match o with RejectedDuplicate _ _ => true | _ => false end.

Definition is_failed (o : Outcome) : bool :=
  match o with Failed _ => true | _ => false end.

(** The terminal states reached by the files of a batch, in order;
    nothing follows a Rejected-Duplicate, which ends the request. *)
Fixpoint outcomes (user : User) (st : State) (files : list UploadFile)
  : list Outcome :=
  match files with
  | [] => []
  | file :: rest =>
      let o := embed_one user st file in
      o :: (if is_duplicate o then [] else outcomes user (state_after o) rest)
  end.

Definition accepted_count (os : list Outcome) : nat :=
  List.length (filter is_accepted os).

Definition failed_count (os : list Outcome) : nat :=
  List.length (filter is_failed os).

(** No file of the batch was rejected as a duplicate. *)
Definition no_duplicate (os : list Outcome) : bool :=
  forallb (fun o => negb (is_duplicate o)) os.

(** The response of a request read off the outcomes of its files, with
    [n] dictionaries in [result_list] beforehand. *)
Definition response_of (n : nat) (os : list Outcome) : Response :=
  match find is_duplicate os with
  | Some (RejectedDuplicate response _) => response
  | _ =>
      ExtractionResult
        (PyStr.str_of_nat (n + accepted_count os) ++ " files added to vectorstore.")
  end.

(** The state the last of these outcomes left, [st] when there is none. *)
Fixpoint last_state (st : State) (os : list Outcome) : State :=
  match os with
  | [] => st
  | o :: rest => last_state (state_after o) rest
  end.

(** The registry already holds a row for the pair this file parses to. *)
Definition registered (st : State) (file : UploadFile) : Prop :=
  exists row,
    In row (db st)
    /\ course_code row = rd_course_code (new_result_dict file)
    /\ document_name row = rd_filename (new_result_dict file).

(** The chunk identifiers an accepted file was stored under. *)
Definition stored_ids (rd : ResultDict) : list string :=
  match rd_content rd with
  | Some content => chunk_ids rd (split_text E 800 200 content)
  | None => []
  end.

Definition holds_id (st : State) (i : string) : Prop :=
  exists e, In e (collection st) /\ entry_id e = i.

(** *** Courses, listing and serving *)

(** [get_course_code(self, params, db, user)] *)
Definition get_course_code (params : GetCourseParams) (cs : Courses.t)
  : string :=
  match Courses.first_by_subject cs (gcp_subject_name params) with
  | None => ""
  | Some result => course_id result
  end.

(** [list_documents(self, data, db, user)] *)
Definition list_documents (data : DocumentListParams) (cs : Courses.t)
           (st : State) : ReturnDocumentList :=
  let code := get_course_code (mkGetCourseParams (dlp_subject data)) cs in
  let result := Registry.all_by_course (db st) code in
  {| rdl_documents := result; rdl_course_code := code |}.

(** [get_all_subjects(self, db, user)]: the list under the key
    ["courses"]. *)
Definition get_all_subjects (cs : Courses.t) : list string :=
  map subject_name cs.

(** [add_subject(self, params, db, user)]: the message of the response
    and the table after the commit; [None] when the commit raises, which
    nothing in the function catches. *)
Definition add_subject (params : AddSubjectParams) (cs : Courses.t)
  : option (string * Courses.t) :=
  match Courses.insert cs (mkCourse (asp_course_code params)
                                    (asp_subject_name params)) with
  | Some cs' => Some ("success", cs')
  | None => None
  end.

(** [search_documents(self, course_code, filename)]: the response built in
    the [try] block; neither [os.path.join] on strings nor the constructor
    of the response raises. *)
Definition search_documents (course filename : string) : FileResponse :=
  let path := document_path course filename in
  if String.eqb (PyStr.slice path (Some (-3)%Z) None) "pdf"
  then mkFileResponse path "application/pdf"
  else if String.eqb (PyStr.slice path (Some (-4)%Z) None) "pptx"
  then mkFileResponse path
         "application/vnd.openxmlformats-officedocument.presentationml.presentation"
  else mkFileResponse path "application/vnd.ms-powerpoint".

(** The pair the duplicate check compares. *)
Definition pair_of (d : Document) : string * string :=
  (course_code d, document_name d).

(** The identifier of chunk [i] of a file. *)
Definition chunk_id (extracted : ResultDict) (i : nat) : string :=
  (rd_course_code extracted ++ "-" ++ rd_filename extracted ++ "-")
  ++ PyStr.str_of_nat i.

(** The dictionaries of the accepted files of a batch, in upload order. *)
Definition accepted_dicts (os : list Outcome) : list ResultDict :=
  flat_map (fun o => match o with
                     | Accepted rd _ => [rd]
                     | _ => []
                     end) os.

(** The pair a dictionary carries. *)
Definition dict_pair (rd : ResultDict) : string * string :=
  (rd_course_code rd, rd_filename rd).

(** The pair in the metadata of an entry. *)
Definition entry_pair (e : Entry) : string * string :=
  (md_course_code (entry_metadata e), source (entry_metadata e)).

(** Every entry is chunk [i] of some upload name and carries the course
    code and the document name that name parses to. *)
Definition well_keyed (coll : Chroma.t) : Prop :=
  forall e, In e coll ->
    exists f i,
      entry_id e = chunk_id (new_result_dict f) i
      /\ entry_pair e = dict_pair (new_result_dict f).

(** *** Exceptions inside the [try] block *)

(** The row [add_document] builds (lines 206-212) in state [st]. *)
Definition document_row (st : State) (extracted : ResultDict) (user : User)
  : Document :=
  {| doc_id := uuid4 E (clock st);
     added_at := datetime_now E (clock st);
     user_id := u_id user;
     course_code := rd_course_code extracted;
     document_name := rd_filename extracted |}.

(** One of the calls of the [try] block raises for this file in this
    state: the extraction (lines 139-143), [self._collection.add] (line
    193), or [db.commit] (line 213) once the vector store took the
    chunks. *)
Inductive raises_in (user : User) (st : State) (file : UploadFile) : Prop :=
| raises_in_extraction :
    extract file = None ->
    raises_in user st file
| raises_in_add (content : string) :
    extract file = Some content ->
    collection_add_raises E (collection st)
      (chunk_batch (set_content (new_result_dict file) content) content)
    = true ->
    raises_in user st file
| raises_in_commit (content : string) :
    extract file = Some content ->
    collection_add_raises E (collection st)
      (chunk_batch (set_content (new_result_dict file) content) content)
    = false ->
    db_commit_raises E (db st)
      (document_row st (set_content (new_result_dict file) content) user)
    = true ->
    raises_in user st file.

(** The file completed ingestion between [st] and [st']: its text was
    extracted, its chunks were added to the vector store and its row was
    inserted into the registry. *)
Definition ingested (user : User) (st st' : State) (file : UploadFile) : Prop :=
  exists content,
    extract file = Some content
    /\ collection st'
       = Chroma.add (collection st)
           (chunk_batch (set_content (new_result_dict file) content) content)
    /\ db st'
       = Registry.insert (db st)
           (document_row st (set_content (new_result_dict file) content) user).

End WithEnv.

End Embedder.

(** ** A concrete environment

    Used to run the model: extraction returns the bytes of the upload and
    raises on an empty upload, the splitter yields the whole text as one
    chunk (none for the empty text), the vector store refuses an empty
    batch, and the registry accepts every row. *)

Module Demo.

Definition extraction (f : UploadFile) : option string :=
  if String.eqb (file_bytes f) "" then None else Some (file_bytes f).

Definition env : Env :=
  {| pdf_extraction_alg := extraction;
     pptx_extraction_alg := extraction;
     split_text := fun _ _ text => if String.eqb text "" then [] else [text];
     embedding_distance :=
       fun q d => if String.eqb q d then 0.25%float else 1.5%float;
     collection_add_raises :=
       fun _ batch => match batch with [] => true | _ => false end;
     db_commit_raises := fun _ _ => false;
     uuid4 := fun n => "uuid-" ++ PyStr.str_of_nat n;
     datetime_now := fun n => Z.of_nat n;
     ROOT_DIR := "/srv/teachgpt" |}.

Definition alice : User :=
  mkUser "Alice" "u1" 0 "alice@example.org" "f" "x" "cs" "1".

Definition st0 : State :=
  mkState [] [] ["/srv/teachgpt/documents/CSCI101L/ectureNotes.pdf"] 0.

Definition notes : UploadFile :=
  mkUploadFile "CSCI101LectureNotes.pdf" "lecture one".

(** Same name as [notes], but an upload the extractor raises on. *)
Definition notes_broken : UploadFile :=
  mkUploadFile "CSCI101LectureNotes.pdf" "".

Definition slides : UploadFile :=
  mkUploadFile "MATH2000week1.pptx" "slides".

Definition readme : UploadFile :=
  mkUploadFile "MATH2000readme.txt" "hello".

(** The same document name under another course. *)
Definition notes_other_course : UploadFile :=
  mkUploadFile "MATH2000ectureNotes.pdf" "lecture two".

Definition courses : Courses.t :=
  [mkCourse "CSCI101L" "Computer Science"; mkCourse "MATH2000" "Calculus"].

(** A name shorter than the 8 characters of a course code. *)
Definition short_name : UploadFile := mkUploadFile "a.pdf" "short".

(** The same environment with a foreign key on the course code: the
    registry refuses a row whose course is not one of [courses]. *)
Definition env_foreign_key : Env :=
  {| pdf_extraction_alg := extraction;
     pptx_extraction_alg := extraction;
     split_text := split_text env;
     embedding_distance := embedding_distance env;
     collection_add_raises := collection_add_raises env;
     db_commit_raises :=
       fun _ row =>
         negb (existsb (fun c => String.eqb (course_id c) (course_code row))
                       courses);
     uuid4 := uuid4 env;
     datetime_now := datetime_now env;
     ROOT_DIR := ROOT_DIR env |}.

(** An upload for a course that [courses] does not hold. *)
Definition unknown_course : UploadFile :=
  mkUploadFile "PHYS3000intro.pdf" "intro".

End Demo.

(** ** Facts about slices *)

Section SliceFacts.

Import PyStr.

Lemma chars_length (s : string) : List.length (chars s) = String.length s.
Proof.
  induction s as [|c s IH]; simpl; [reflexivity | now rewrite IH].
Qed.

Lemma chars_append (s t : string) : chars (s ++ t) = (chars s ++ chars t)%list.
Proof.
  induction s as [|c s IH]; simpl; [reflexivity | now rewrite IH].
Qed.

Lemma chars_inj (s t : string) : chars s = chars t -> s = t.
Proof.
  intros H.
  rewrite <- (string_of_list_ascii_of_string s).
  rewrite <- (string_of_list_ascii_of_string t).
  unfold chars in H. now rewrite H.
Qed.

Lemma chars_substring (n m : nat) (s : string) :
  chars (substring n m s) = firstn m (skipn n (chars s)).
Proof.
  revert n m.
  induction s as [|c s IH]; intros n m.
  - destruct n, m; reflexivity.
  - destruct n as [|n].
    + destruct m as [|m]; simpl; [reflexivity | ].
      f_equal. apply (IH 0 m).
    + simpl. apply IH.
Qed.

(** [s[:k]] is the list prefix of length [k] (all of [s] when shorter). *)
Lemma slice_prefix (s : string) (k : nat) :
  chars (slice s None (Some (Z.of_nat k))) = firstn k (chars s).
Proof.
  unfold slice, adjust_index, len.
  rewrite chars_substring.
  destruct (Z.ltb_spec (Z.of_nat k) 0) as [Hneg|_]; [lia|].
  rewrite Z.sub_0_r. simpl skipn.
  destruct (Z.min_spec (Z.of_nat k) (Z.of_nat (String.length s)))
    as [[Hlt ->]|[Hge ->]]; rewrite Nat2Z.id.
  - reflexivity.
  - rewrite <- chars_length.
    rewrite firstn_all.
    symmetry. apply firstn_all2. rewrite chars_length. lia.
Qed.

(** [s[k:]] drops the first [k] characters. *)
Lemma slice_from (s : string) (k : nat) :
  chars (slice s (Some (Z.of_nat k)) None) = skipn k (chars s).
Proof.
  unfold slice, adjust_index, len.
  rewrite chars_substring.
  destruct (Z.ltb_spec (Z.of_nat k) 0) as [Hneg|_]; [lia|].
  destruct (Z.min_spec (Z.of_nat k) (Z.of_nat (String.length s)))
    as [[Hlt ->]|[Hge ->]].
  - rewrite Nat2Z.id. apply firstn_all2.
    rewrite length_skipn, chars_length. lia.
  - rewrite Nat2Z.id, Z.sub_diag. simpl firstn.
    symmetry. apply skipn_all2. rewrite chars_length. lia.
Qed.

(** [s[-k:]] keeps the last [k] characters (all of [s] when shorter). *)
Lemma slice_last (s : string) (k : nat) :
  0 < k ->
  chars (slice s (Some (- Z.of_nat k)%Z) None)
  = skipn (String.length s - k) (chars s).
Proof.
  intros Hk.
  unfold slice, adjust_index, len.
  rewrite chars_substring.
  destruct (Z.ltb_spec (- Z.of_nat k) 0) as [_|Hpos]; [|lia].
  assert (Hlo : Z.to_nat (Z.max 0 (- Z.of_nat k + Z.of_nat (String.length s)))
                = String.length s - k) by lia.
  rewrite Hlo.
  apply firstn_all2.
  rewrite length_skipn, chars_length. lia.
Qed.

(** Comparing the last [k] characters with a [k]-character string decides
    whether the string ends with it. *)
Lemma slice_last_eq_iff (s suf : string) :
  0 < String.length suf ->
  slice s (Some (- Z.of_nat (String.length suf))%Z) None = suf
  <-> exists p, s = p ++ suf.
Proof.
  intros Hk. split.
  - intros H.
    apply (f_equal chars) in H. rewrite slice_last in H by exact Hk.
    exists (string_of_list_ascii
              (firstn (String.length s - String.length suf) (chars s))).
    apply chars_inj. rewrite chars_append.
    unfold chars at 2. rewrite list_ascii_of_string_of_list_ascii.
    rewrite <- H. symmetry. apply firstn_skipn.
  - intros [p ->].
    apply chars_inj. rewrite slice_last by exact Hk.
    rewrite <- (chars_length (p ++ suf)), chars_append, length_app.
    rewrite <- (chars_length suf), Nat.add_sub.
    rewrite skipn_app, skipn_all, Nat.sub_diag. reflexivity.
Qed.

End SliceFacts.

(** ** File names: course code, document name, extension *)

Section Filenames.

Import PyStr.

Lemma result_dict_chars (file : UploadFile) :
  chars (rd_course_code (new_result_dict file)) = firstn 8 (chars (filename file))
  /\ chars (rd_filename (new_result_dict file)) = skipn 8 (chars (filename file)).
Proof.
  split.
  - apply (slice_prefix (filename file) 8).
  - apply (slice_from (filename file) 8).
Qed.

(** C3. For every uploaded file, the course code is the first 8 characters
    of the file name (the whole name when it is shorter) and the document
    name is what follows from index 8 on; the two put together give the
    file name back. *)
Theorem C3_filename_split (file : UploadFile) :
  let rd := new_result_dict file in
  chars (rd_course_code rd) = firstn 8 (chars (filename file))
  /\ chars (rd_filename rd) = skipn 8 (chars (filename file))
  /\ rd_course_code rd ++ rd_filename rd = filename file
  /\ String.length (rd_course_code rd) = Nat.min 8 (String.length (filename file)).
Proof.
  intros rd.
  destruct (result_dict_chars file) as [Hc Hn]. fold rd in Hc, Hn.
  repeat split; try assumption.
  - apply chars_inj. rewrite chars_append, Hc, Hn. apply firstn_skipn.
  - rewrite <- !chars_length, Hc. apply length_firstn.
Qed.

(** C4, as the source has it. Whatever its bytes, the upload named
    CSCI101LectureNotes.pdf gets course code CSCI101L and document name
    ectureNotes.pdf: the course code takes 8 characters. *)
Theorem C4_lecture_notes_split (bytes : string) :
  let rd := new_result_dict (mkUploadFile "CSCI101LectureNotes.pdf" bytes) in
  rd_course_code rd = "CSCI101L" /\ rd_filename rd = "ectureNotes.pdf".
Proof.
  split; reflexivity.
Qed.

(** C4, as the specification words it, fails: the course code of that
    upload is not the 7-character CSCI101, nor is the document name
    LectureNotes.pdf. *)
Lemma C4_spec_example_fails :
  rd_course_code (new_result_dict Demo.notes) <> "CSCI101"
  /\ rd_filename (new_result_dict Demo.notes) <> "LectureNotes.pdf".
Proof.
  split; intros H; vm_compute in H; discriminate H.
Qed.

Lemma suffix_clash (p q : string) : p ++ ".pptx" <> q ++ ".pdf".
Proof.
  intros H.
  apply (f_equal (fun s => rev (chars s))) in H.
  rewrite !chars_append, !rev_app_distr in H.
  simpl in H. discriminate H.
Qed.

Lemma ends_pdf_test (name : string) :
  String.eqb (slice name (Some (-4)%Z) None) ".pdf" = true
  <-> exists p, name = p ++ ".pdf".
Proof.
  rewrite String.eqb_eq.
  apply (slice_last_eq_iff name ".pdf"). simpl. lia.
Qed.

Lemma ends_pptx_test (name : string) :
  String.eqb (slice name (Some (-5)%Z) None) ".pptx" = true
  <-> exists p, name = p ++ ".pptx".
Proof.
  rewrite String.eqb_eq.
  apply (slice_last_eq_iff name ".pptx"). simpl. lia.
Qed.

(** C8. Extraction is chosen by the end of the file name: a name ending in
    .pdf goes to the PDF extractor, a name ending in .pptx to the PPTX
    extractor, and every other name gets the empty string as content,
    which is a result and not an exception. *)
Theorem C8_extraction_dispatch (E : Env) (file : UploadFile) :
  ((exists p, filename file = p ++ ".pdf") ->
     Embedder.extract E file = pdf_extraction_alg E file)
  /\ ((exists p, filename file = p ++ ".pptx") ->
     Embedder.extract E file = pptx_extraction_alg E file)
  /\ (~ (exists p, filename file = p ++ ".pdf") ->
      ~ (exists p, filename file = p ++ ".pptx") ->
      Embedder.extract E file = Some "").
Proof.
  unfold Embedder.extract.
  repeat split.
  - intros Hpdf. apply ends_pdf_test in Hpdf. now rewrite Hpdf.
  - intros Hpptx.
    destruct (String.eqb (slice (filename file) (Some (-4)%Z) None) ".pdf")
      eqn:Hpdf.
    + apply ends_pdf_test in Hpdf. destruct Hpdf as [q Hq].
      destruct Hpptx as [p Hp]. rewrite Hp in Hq.
      now apply suffix_clash in Hq.
    + apply ends_pptx_test in Hpptx. now rewrite Hpptx.
  - intros Hnpdf Hnpptx.
    destruct (String.eqb (slice (filename file) (Some (-4)%Z) None) ".pdf")
      eqn:Hpdf.
    { apply ends_pdf_test in Hpdf. contradiction. }
    destruct (String.eqb (slice (filename file) (Some (-5)%Z) None) ".pptx")
      eqn:Hpptx.
    { apply ends_pptx_test in Hpptx. contradiction. }
    reflexivity.
Qed.

(** The three branches of C8 on concrete uploads. *)
Lemma C8_extraction_dispatch_witness :
  Embedder.extract Demo.env Demo.notes = pdf_extraction_alg Demo.env Demo.notes
  /\ Embedder.extract Demo.env Demo.slides
     = pptx_extraction_alg Demo.env Demo.slides
  /\ Embedder.extract Demo.env Demo.readme = Some "".
Proof.
  destruct (C8_extraction_dispatch Demo.env Demo.notes) as [Hpdf _].
  destruct (C8_extraction_dispatch Demo.env Demo.slides) as [_ [Hpptx _]].
  destruct (C8_extraction_dispatch Demo.env Demo.readme) as [_ [_ Hother]].
  split; [|split].
  - apply Hpdf. exists "CSCI101LectureNotes". reflexivity.
  - apply Hpptx. exists "MATH2000week1". reflexivity.
  - apply Hother; intros [p Hp];
      apply (f_equal (fun s => hd_error (rev (chars s)))) in Hp;
      rewrite chars_append, rev_app_distr in Hp; simpl in Hp; discriminate Hp.
Defined.

End Filenames.

(** ** The stores under ingestion *)

Section Stores.

Lemma hd_error_some_iff {A : Type} (l : list A) :
  hd_error l <> None <-> exists x, In x l.
Proof.
  destruct l as [|a l]; simpl; split.
  - intros H. now contradiction H.
  - intros [x []].
  - intros _. exists a. now left.
  - intros _. discriminate.
Qed.

(** The duplicate check finds a row exactly when the registry holds one
    for the pair. *)
Lemma first_match_found (r : Registry.t) (c n : string) :
  Registry.first_match r c n <> None
  <-> exists row, In row r /\ course_code row = c /\ document_name row = n.
Proof.
  unfold Registry.first_match. rewrite hd_error_some_iff.
  split; intros [row H]; exists row.
  - apply filter_In in H. destruct H as [H Hn].
    apply filter_In in H. destruct H as [H Hc].
    apply String.eqb_eq in Hn, Hc. auto.
  - destruct H as (Hin & Hc & Hn).
    apply filter_In. split; [apply filter_In; split|].
    + exact Hin.
    + now apply String.eqb_eq.
    + now apply String.eqb_eq.
Qed.

Lemma add_keeps_ids (coll : Chroma.t) (batch : list Entry) (i : string) :
  (exists e, In e coll /\ entry_id e = i) ->
  exists e, In e (Chroma.add coll batch) /\ entry_id e = i.
Proof.
  intros (e & Hin & Hid). unfold Chroma.add.
  destruct (Chroma.has_id batch i) eqn:Hb.
  - unfold Chroma.has_id in Hb. apply existsb_exists in Hb.
    destruct Hb as (e' & Hin' & Heq). apply String.eqb_eq in Heq.
    exists e'. split; [apply in_or_app; now right | exact Heq].
  - exists e. split; [|exact Hid].
    apply in_or_app. left. apply filter_In. split; [exact Hin|].
    now rewrite Hid, Hb.
Qed.

Lemma add_holds_batch (coll : Chroma.t) (batch : list Entry) (e : Entry) :
  In e batch -> In e (Chroma.add coll batch).
Proof.
  intros H. unfold Chroma.add. apply in_or_app. now right.
Qed.

Lemma zip_entries_ids (ids documents : list string) (metadatas : list Metadata) :
  List.length ids = List.length documents ->
  List.length ids = List.length metadatas ->
  map entry_id (Chroma.zip_entries ids documents metadatas) = ids.
Proof.
  revert documents metadatas.
  induction ids as [|i ids IH]; intros [|d ds] [|m ms] Hd Hm;
    simpl in *; try discriminate; try reflexivity.
  f_equal. apply IH; congruence.
Qed.

End Stores.

(** ** Ingestion of one file *)

Section OneFile.

Import Embedder.

Variable E : Env.
Variable user : User.

Lemma batch_ids (rd : ResultDict) (content : string) :
  map entry_id (chunk_batch E rd content)
  = chunk_ids rd (split_text E 800 200 content).
Proof.
  unfold chunk_batch. apply zip_entries_ids.
  - unfold chunk_ids. now rewrite length_map, length_seq.
  - unfold chunk_ids, chunk_metadatas. now rewrite !length_map, length_seq.
Qed.

Lemma add_document_normal (st st' : State) (rd : ResultDict) :
  add_document E st rd user = Normal st' ->
  exists content row,
    rd_content rd = Some content
    /\ collection st' = Chroma.add (collection st) (chunk_batch E rd content)
    /\ db st' = (db st ++ [row])%list
    /\ course_code row = rd_course_code rd
    /\ document_name row = rd_filename rd
    /\ user_id row = u_id user
    /\ disk st' = disk st.
Proof.
  unfold add_document.
  destruct (rd_content rd) as [content|]; [|discriminate].
  destruct (collection_add_raises E _ _); [discriminate|].
  destruct (db_commit_raises E _ _); [discriminate|].
  intros H. injection H as <-.
  eexists content, _. simpl.
  repeat split; reflexivity.
Qed.

Lemma add_document_raised (st st' : State) (rd : ResultDict) :
  add_document E st rd user = Raised st' ->
  db st' = db st
  /\ disk st' = disk st
  /\ (collection st' = collection st
      \/ exists content,
           rd_content rd = Some content
           /\ collection st' = Chroma.add (collection st) (chunk_batch E rd content)).
Proof.
  unfold add_document.
  destruct (rd_content rd) as [content|].
  - destruct (collection_add_raises E _ _).
    + intros H. injection H as <-. auto.
    + destruct (db_commit_raises E _ _); [|discriminate].
      intros H. injection H as <-. simpl.
      repeat split. right. now exists content.
  - intros H. injection H as <-. auto.
Qed.

(** Whatever happens to a file, the rows of the registry stay, in order,
    and every identifier of the vector store stays in use. *)
Lemma embed_one_db_grows (st : State) (file : UploadFile) :
  exists extra,
    db (state_after (embed_one E user st file)) = (db st ++ extra)%list.
Proof.
  unfold embed_one.
  destruct (extract E file) as [result|]; [|exists []; simpl; now rewrite app_nil_r].
  destruct (Registry.first_match _ _ _);
    [exists []; simpl; now rewrite app_nil_r|].
  destruct (add_document E st _ user) as [st'|st'] eqn:Hadd; simpl.
  - apply add_document_normal in Hadd.
    destruct Hadd as (content & row & _ & _ & Hdb & _). now exists [row].
  - apply add_document_raised in Hadd.
    destruct Hadd as (Hdb & _). exists []. now rewrite app_nil_r.
Qed.

Lemma embed_one_keeps_ids (st : State) (file : UploadFile) (i : string) :
  holds_id st i -> holds_id (state_after (embed_one E user st file)) i.
Proof.
  unfold holds_id, embed_one. intros H.
  destruct (extract E file) as [result|]; [|exact H].
  destruct (Registry.first_match _ _ _); [exact H|].
  destruct (add_document E st _ user) as [st'|st'] eqn:Hadd; simpl.
  - apply add_document_normal in Hadd.
    destruct Hadd as (content & row & _ & Hcoll & _).
    rewrite Hcoll. now apply add_keeps_ids.
  - apply add_document_raised in Hadd.
    destruct Hadd as (_ & _ & [Hcoll | (content & _ & Hcoll)]); rewrite Hcoll.
    + exact H.
    + now apply add_keeps_ids.
Qed.

(** What an accepted file leaves behind. *)
Lemma embed_one_accepted (st st' : State) (file : UploadFile) (rd : ResultDict) :
  embed_one E user st file = Accepted rd st' ->
  rd_course_code rd = rd_course_code (new_result_dict file)
  /\ rd_filename rd = rd_filename (new_result_dict file)
  /\ (exists content, extract E file = Some content /\ rd_content rd = Some content)
  /\ ~ registered st file
  /\ (exists row,
        db st' = (db st ++ [row])%list
        /\ course_code row = rd_course_code rd
        /\ document_name row = rd_filename rd)
  /\ (forall i, In i (stored_ids E rd) -> holds_id st' i).
Proof.
  unfold embed_one.
  destruct (extract E file) as [result|]; [|discriminate].
  destruct (Registry.first_match _ _ _) eqn:Hfirst; [discriminate|].
  destruct (add_document E st _ user) as [st1|st1] eqn:Hadd; [|discriminate].
  intros H. injection H as <- <-.
  apply add_document_normal in Hadd.
  destruct Hadd as (content & row & Hcontent & Hcoll & Hdb & Hc & Hn & _).
  simpl in Hcontent. injection Hcontent as <-.
  split; [reflexivity|]. split; [reflexivity|].
  split; [now exists result|].
  split.
  - intros Hreg. apply (first_match_found (db st)) in Hreg.
    apply Hreg. exact Hfirst.
  - split; [now exists row|].
    intros i Hi. unfold stored_ids in Hi. simpl in Hi.
    rewrite <- batch_ids in Hi. apply in_map_iff in Hi.
    destruct Hi as (e & Hid & Hin).
    exists e. split; [|exact Hid].
    rewrite Hcoll. now apply add_holds_batch.
Qed.

(** What happens to a file whose pair is registered already: the
    extraction runs first, and only then the duplicate check. *)
Lemma embed_one_registered (st : State) (file : UploadFile) :
  registered st file ->
  embed_one E user st file
  = match extract E file with
    | Some _ => RejectedDuplicate (HTTPErrorResponse "Embedding present") st
    | None => Failed st
    end.
Proof.
  intros Hreg. apply (first_match_found (db st)) in Hreg.
  unfold embed_one.
  destruct (extract E file) as [result|]; [|reflexivity].
  simpl.
  destruct (Registry.first_match _ _ _); [reflexivity|now contradiction Hreg].
Qed.

Lemma embed_one_duplicate (st : State) (file : UploadFile) :
  is_duplicate (embed_one E user st file) = true ->
  embed_one E user st file
  = RejectedDuplicate (HTTPErrorResponse "Embedding present") st.
Proof.
  unfold embed_one.
  destruct (extract E file) as [result|]; [|discriminate].
  destruct (Registry.first_match _ _ _); [reflexivity|].
  destruct (add_document E st _ user); discriminate.
Qed.

End OneFile.

(** ** Batches *)

Section Batch.

Import Embedder.

Variable E : Env.
Variable user : User.

(** The loop ends in the state the last outcome left, with the response of
    the first Rejected-Duplicate if there is one and the count of accepted
    files otherwise. *)
Lemma embed_loop_outcomes (files : list UploadFile) :
  forall (result_list : list ResultDict) (st : State),
    embed_loop E user files result_list st
    = (response_of (List.length result_list) (outcomes E user st files),
       last_state st (outcomes E user st files)).
Proof.
  induction files as [|file rest IH]; intros result_list st.
  - unfold response_of, accepted_count. simpl. now rewrite Nat.add_0_r.
  - simpl.
    destruct (embed_one E user st file) as [rd st'|response st'|st'] eqn:Hone.
    + rewrite IH. simpl. f_equal.
      unfold response_of, accepted_count. simpl.
      rewrite length_app. simpl.
      replace (List.length result_list + 1
               + List.length (filter is_accepted (outcomes E user st' rest)))
        with (List.length result_list
              + S (List.length (filter is_accepted (outcomes E user st' rest))))
        by lia.
      reflexivity.
    + reflexivity.
    + rewrite IH. reflexivity.
Qed.

Lemma outcomes_length (files : list UploadFile) :
  forall st : State,
    no_duplicate (outcomes E user st files) = true ->
    List.length (outcomes E user st files) = List.length files.
Proof.
  induction files as [|file rest IH]; intros st Hnd; [reflexivity|].
  simpl in *.
  apply andb_true_iff in Hnd. destruct Hnd as [Hone Hrest].
  apply negb_true_iff in Hone. rewrite Hone in *.
  f_equal. now apply IH.
Qed.

Lemma no_duplicate_find (os : list Outcome) :
  no_duplicate os = true -> find is_duplicate os = None.
Proof.
  induction os as [|o os IH]; [reflexivity|].
  simpl. intros H. apply andb_true_iff in H. destruct H as [Ho Hos].
  apply negb_true_iff in Ho. rewrite Ho. now apply IH.
Qed.

Lemma no_duplicate_counts (os : list Outcome) :
  no_duplicate os = true ->
  accepted_count os + failed_count os = List.length os.
Proof.
  unfold accepted_count, failed_count.
  induction os as [|o os IH]; [reflexivity|].
  simpl. intros H. apply andb_true_iff in H. destruct H as [Ho Hos].
  specialize (IH Hos).
  destruct o; simpl in *; try discriminate; lia.
Qed.

(** The outcomes of a batch whose first duplicate is the file after [pre]. *)
Lemma outcomes_until_duplicate (pre : list UploadFile) (file : UploadFile)
      (rest : list UploadFile) :
  forall st : State,
    no_duplicate (outcomes E user st pre) = true ->
    is_duplicate
      (embed_one E user (last_state st (outcomes E user st pre)) file) = true ->
    outcomes E user st (pre ++ file :: rest)
    = (outcomes E user st pre
       ++ [embed_one E user (last_state st (outcomes E user st pre)) file])%list.
Proof.
  induction pre as [|g pre IH]; intros st Hnd Hdup; simpl in *.
  - now rewrite Hdup.
  - apply andb_true_iff in Hnd. destruct Hnd as [Hg Hpre].
    apply negb_true_iff in Hg. rewrite Hg in *.
    f_equal. now apply IH.
Qed.

Lemma last_state_app (os os' : list Outcome) :
  forall st : State,
    last_state st (os ++ os') = last_state (last_state st os) os'.
Proof.
  induction os as [|o os IH]; intros st; simpl; [reflexivity | apply IH].
Qed.

Lemma find_duplicate_app (os : list Outcome) (o : Outcome) :
  no_duplicate os = true ->
  is_duplicate o = true ->
  find is_duplicate (os ++ [o]) = Some o.
Proof.
  induction os as [|x os IH]; simpl; intros Hnd Ho.
  - now rewrite Ho.
  - apply andb_true_iff in Hnd. destruct Hnd as [Hx Hos].
    apply negb_true_iff in Hx. rewrite Hx. now apply IH.
Qed.

(** Rows and identifiers survive the rest of a batch. *)
Lemma outcomes_db_grow (files : list UploadFile) :
  forall (st : State) (row : Document),
    In row (db st) -> In row (db (last_state st (outcomes E user st files))).
Proof.
  induction files as [|file rest IH]; intros st row Hin; simpl; [exact Hin|].
  destruct (embed_one_db_grows E user st file) as [extra Hdb].
  destruct (is_duplicate (embed_one E user st file)); simpl.
  - rewrite Hdb. apply in_or_app. now left.
  - apply IH. rewrite Hdb. apply in_or_app. now left.
Qed.

Lemma outcomes_keep_ids (files : list UploadFile) :
  forall (st : State) (i : string),
    holds_id st i -> holds_id (last_state st (outcomes E user st files)) i.
Proof.
  induction files as [|file rest IH]; intros st i Hi; simpl; [exact Hi|].
  pose proof (embed_one_keeps_ids E user st file i Hi) as Hnext.
  destruct (is_duplicate (embed_one E user st file)); simpl.
  - exact Hnext.
  - now apply IH.
Qed.

Lemma accepted_persist (files : list UploadFile) :
  forall (st : State) (rd : ResultDict) (s : State),
    In (Accepted rd s) (outcomes E user st files) ->
    let final := last_state st (outcomes E user st files) in
    (exists row,
       In row (db final)
       /\ course_code row = rd_course_code rd
       /\ document_name row = rd_filename rd)
    /\ (forall i, In i (stored_ids E rd) -> holds_id final i).
Proof.
  induction files as [|file rest IH]; intros st rd s Hin; simpl in *;
    [contradiction|].
  destruct Hin as [Hhere | Hlater].
  - rewrite Hhere. simpl.
    apply embed_one_accepted in Hhere.
    destruct Hhere as (_ & _ & _ & _ & (row & Hdb & Hc & Hn) & Hids).
    split.
    + exists row. split; [|auto].
      apply outcomes_db_grow. rewrite Hdb. apply in_or_app. right. now left.
    + intros i Hi. apply outcomes_keep_ids. now apply Hids.
  - destruct (is_duplicate (embed_one E user st file)); [contradiction|].
    simpl. now apply (IH _ rd s).
Qed.

End Batch.

(** ** Duplicates, failures and aborted batches *)

Section IngestionClaims.

Import Embedder.

(** C1, as the source has it. Once a file has been accepted, a request whose
    first file parses to the same course code and document name is answered
    with the error Embedding present, without looking at its other files,
    provided the extraction of that file returns: extraction runs before
    the duplicate check, and a file whose extraction raises is Failed
    instead.  Either way that file is not accepted and leaves the vector
    store, the registry and the rest of the state as they were. *)
Theorem C1_second_upload_rejected
        (E : Env) (user : User) (st st' : State) (file : UploadFile)
        (rd : ResultDict) (again : UploadFile) (rest : list UploadFile) :
  embed_one E user st file = Accepted rd st' ->
  rd_course_code (new_result_dict again) = rd_course_code (new_result_dict file) ->
  rd_filename (new_result_dict again) = rd_filename (new_result_dict file) ->
  (forall content,
      extract E again = Some content ->
      embed_file E (again :: rest) user st'
      = (HTTPErrorResponse "Embedding present", st'))
  /\ (extract E again = None -> embed_one E user st' again = Failed st')
  /\ is_accepted (embed_one E user st' again) = false
  /\ state_after (embed_one E user st' again) = st'.
Proof.
  intros Hacc Hc Hn.
  apply embed_one_accepted in Hacc.
  destruct Hacc as (Hrc & Hrn & _ & _ & (row & Hdb & Hrowc & Hrown) & _).
  assert (Hreg : registered st' again).
  { exists row. split; [|split].
    - rewrite Hdb. apply in_or_app. right. now left.
    - congruence.
    - congruence. }
  pose proof (embed_one_registered E user st' again Hreg) as Hone.
  split; [|split; [|split]].
  - intros content Hex. unfold embed_file. simpl.
    rewrite Hone, Hex. reflexivity.
  - intros Hex. now rewrite Hone, Hex.
  - rewrite Hone. now destruct (extract E again).
  - rewrite Hone. now destruct (extract E again).
Qed.

(** C1 on the lecture notes uploaded twice. *)
Lemma C1_second_upload_rejected_witness :
  let st1 := state_after (embed_one Demo.env Demo.alice Demo.st0 Demo.notes) in
  is_accepted (embed_one Demo.env Demo.alice Demo.st0 Demo.notes) = true
  /\ extract Demo.env Demo.notes = Some "lecture one"
  /\ embed_file Demo.env [Demo.notes; Demo.slides] Demo.alice st1
     = (HTTPErrorResponse "Embedding present", st1).
Proof.
  split; [reflexivity|]. split; [reflexivity|].
  refine (proj1 (C1_second_upload_rejected Demo.env Demo.alice Demo.st0 _
                   Demo.notes _ Demo.notes [Demo.slides] _ _ _)
                "lecture one" _); reflexivity.
Defined.

(** C1, as the specification words it, fails: after the lecture notes were
    accepted, a second upload under the same name whose extraction raises
    is answered with a count of 0 files, not with the duplicate error. *)
Lemma C1_failed_extraction_hides_duplicate :
  let st1 := state_after (embed_one Demo.env Demo.alice Demo.st0 Demo.notes) in
  is_accepted (embed_one Demo.env Demo.alice Demo.st0 Demo.notes) = true
  /\ rd_course_code (new_result_dict Demo.notes_broken)
     = rd_course_code (new_result_dict Demo.notes)
  /\ rd_filename (new_result_dict Demo.notes_broken)
     = rd_filename (new_result_dict Demo.notes)
  /\ embed_file Demo.env [Demo.notes_broken] Demo.alice st1
     = (ExtractionResult "0 files added to vectorstore.", st1)
  /\ fst (embed_file Demo.env [Demo.notes_broken] Demo.alice st1)
     <> HTTPErrorResponse "Embedding present".
Proof.
  repeat split; try reflexivity.
  vm_compute. discriminate.
Qed.

(** C10. When the file after [pre] is rejected as a duplicate, the request
    ends with the error Embedding present and no count, in exactly the
    state the files of [pre] left: nothing is undone.  Each file of [pre]
    that was accepted still has its row in the registry, and the vector
    store still holds an entry under each identifier its chunks were stored
    under. *)
Theorem C10_abort_keeps_earlier_files
        (E : Env) (user : User) (st : State)
        (pre : list UploadFile) (file : UploadFile) (rest : list UploadFile) :
  no_duplicate (outcomes E user st pre) = true ->
  is_duplicate
    (embed_one E user (last_state st (outcomes E user st pre)) file) = true ->
  let st1 := last_state st (outcomes E user st pre) in
  embed_file E (pre ++ file :: rest) user st
  = (HTTPErrorResponse "Embedding present", st1)
  /\ snd (embed_file E pre user st) = st1
  /\ (forall rd s,
         In (Accepted rd s) (outcomes E user st pre) ->
         (exists row,
            In row (db st1)
            /\ course_code row = rd_course_code rd
            /\ document_name row = rd_filename rd)
         /\ (forall i, In i (stored_ids E rd) -> holds_id st1 i)).
Proof.
  intros Hnd Hdup st1.
  pose proof (embed_one_duplicate E user st1 file Hdup) as Hone.
  split; [|split].
  - unfold embed_file. rewrite embed_loop_outcomes.
    rewrite (outcomes_until_duplicate E user pre file rest st Hnd Hdup).
    fold st1. rewrite Hone.
    unfold response_of.
    rewrite find_duplicate_app by (exact Hnd || reflexivity).
    rewrite last_state_app. reflexivity.
  - unfold embed_file. now rewrite embed_loop_outcomes.
  - intros rd s Hin. now apply (accepted_persist E user pre st rd s).
Qed.

(** C10 on a batch of four whose third file repeats the first. *)
Lemma C10_abort_keeps_earlier_files_witness :
  let st1 :=
    snd (embed_file Demo.env [Demo.notes; Demo.slides] Demo.alice Demo.st0) in
  no_duplicate (outcomes Demo.env Demo.alice Demo.st0 [Demo.notes; Demo.slides])
  = true
  /\ is_duplicate (embed_one Demo.env Demo.alice st1 Demo.notes) = true
  /\ embed_file Demo.env [Demo.notes; Demo.slides; Demo.notes; Demo.readme]
       Demo.alice Demo.st0
     = (HTTPErrorResponse "Embedding present", st1)
  /\ List.length (db st1) = 2
  /\ List.length (collection st1) = 2.
Proof.
  split; [reflexivity|]. split; [reflexivity|].
  split; [|split; reflexivity].
  refine (proj1 (C10_abort_keeps_earlier_files Demo.env Demo.alice Demo.st0
                   [Demo.notes; Demo.slides] Demo.notes [Demo.readme] _ _));
    reflexivity.
Defined.

End IngestionClaims.

(** ** Query *)

Section QueryClaims.

Import Embedder.

Lemma insert_by_distance_In (d : string -> string -> float) (q : string)
      (e x : Entry) (l : list Entry) :
  In x (Chroma.insert_by_distance d q e l) <-> x = e \/ In x l.
Proof.
  induction l as [|y l IH]; simpl.
  - intuition congruence.
  - destruct (PrimFloat.leb _ _); simpl.
    + intuition congruence.
    + rewrite IH. intuition congruence.
Qed.

Lemma sort_by_distance_In (d : string -> string -> float) (q : string)
      (x : Entry) (l : list Entry) :
  In x (Chroma.sort_by_distance d q l) <-> In x l.
Proof.
  unfold Chroma.sort_by_distance.
  induction l as [|e l IH]; simpl; [reflexivity|].
  rewrite insert_by_distance_In, IH. intuition congruence.
Qed.

(** The hits of a query are entries of the collection that carry the
    course code asked for. *)
Lemma nearest_in_scope (d : string -> string -> float) (coll : Chroma.t)
      (q : string) (n : nat) (course : string) (e : Entry) :
  In e (Chroma.nearest d coll q n course) ->
  In e coll /\ md_course_code (entry_metadata e) = course.
Proof.
  unfold Chroma.nearest, Chroma.scope. intros H.
  assert (Hs : In e (Chroma.sort_by_distance d q
                       (filter (fun e0 => String.eqb
                                  (md_course_code (entry_metadata e0)) course)
                               coll))).
  { rewrite <- (firstn_skipn n). apply in_or_app. now left. }
  apply sort_by_distance_In in Hs. apply filter_In in Hs.
  destruct Hs as [Hin Heq]. now apply String.eqb_eq in Heq.
Qed.

(** C2. A query asks the vector store for one nearest entry among those of
    the course.  It never raises: it returns the text and the source file
    name of that entry when there is one and its distance is below 1.0, and
    the pair of empty strings otherwise, in particular when the course has
    no entry at all. *)
Theorem C2_query_top_hit (E : Env) (st : State) (message course_id : string) :
  let hits :=
    Chroma.nearest (embedding_distance E) (collection st) message 1 course_id in
  List.length hits <= 1
  /\ (forall e, In e hits ->
                In e (collection st)
                /\ md_course_code (entry_metadata e) = course_id)
  /\ query E st message course_id
     = Some match hits with
            | e :: _ =>
                if PrimFloat.ltb (embedding_distance E message (entry_document e))
                                 1%float
                then (entry_document e, source (entry_metadata e))
                else ("", "")
            | [] => ("", "")
            end
  /\ (Chroma.scope (collection st) course_id = [] ->
      query E st message course_id = Some ("", "")).
Proof.
  intros hits.
  assert (Hq : query E st message course_id
               = Some match hits with
                      | e :: _ =>
                          if PrimFloat.ltb
                               (embedding_distance E message (entry_document e))
                               1%float
                          then (entry_document e, source (entry_metadata e))
                          else ("", "")
                      | [] => ("", "")
                      end).
  { unfold query, Chroma.query. simpl. fold hits.
    destruct hits as [|e l]; simpl; [reflexivity|].
    now destruct (PrimFloat.ltb _ _). }
  split; [|split; [|split]].
  - unfold hits, Chroma.nearest. apply firstn_le_length.
  - intros e He. now apply (nearest_in_scope _ _ _ _ _ _ He).
  - exact Hq.
  - intros Hempty. rewrite Hq. unfold hits, Chroma.nearest.
    rewrite Hempty. reflexivity.
Qed.

(** C2 on the demo store: a close hit is returned, a distant one and an
    empty course give the pair of empty strings. *)
Lemma C2_query_top_hit_witness :
  let st :=
    snd (embed_file Demo.env [Demo.notes; Demo.slides] Demo.alice Demo.st0) in
  query Demo.env st "lecture one" "CSCI101L"
  = Some ("lecture one", "ectureNotes.pdf")
  /\ query Demo.env st "something else" "CSCI101L" = Some ("", "")
  /\ query Demo.env st "lecture one" "PHYS3000" = Some ("", "").
Proof.
  split; [|split].
  - exact (proj1 (proj2 (proj2
      (C2_query_top_hit Demo.env
         (snd (embed_file Demo.env [Demo.notes; Demo.slides] Demo.alice Demo.st0))
         "lecture one" "CSCI101L")))).
  - exact (proj1 (proj2 (proj2
      (C2_query_top_hit Demo.env
         (snd (embed_file Demo.env [Demo.notes; Demo.slides] Demo.alice Demo.st0))
         "something else" "CSCI101L")))).
  - refine (proj2 (proj2 (proj2
      (C2_query_top_hit Demo.env
         (snd (embed_file Demo.env [Demo.notes; Demo.slides] Demo.alice Demo.st0))
         "lecture one" "PHYS3000"))) _).
    reflexivity.
Defined.

End QueryClaims.

(** ** Deletion *)

Section DeletionClaims.

Import Embedder.

Lemma delete_document_stores (E : Env) (st : State) (course name : string) :
  db (snd (delete_document E st course name))
  = Registry.delete_by_name (db st) name
  /\ collection (snd (delete_document E st course name))
     = Chroma.delete_where_source (collection st) name.
Proof.
  unfold delete_document. destruct (Disk.remove _ _); simpl; auto.
Qed.

Lemma delete_by_name_In (r : Registry.t) (name : string) (row : Document) :
  In row (Registry.delete_by_name r name)
  <-> In row r /\ document_name row <> name.
Proof.
  unfold Registry.delete_by_name. rewrite filter_In, negb_true_iff.
  now rewrite String.eqb_neq.
Qed.

Lemma delete_where_source_In (coll : Chroma.t) (name : string) (e : Entry) :
  In e (Chroma.delete_where_source coll name)
  <-> In e coll /\ source (entry_metadata e) <> name.
Proof.
  unfold Chroma.delete_where_source. rewrite filter_In, negb_true_iff.
  now rewrite String.eqb_neq.
Qed.

(** C7. Deletion removes the rows named like the file from the registry,
    then the entries whose source is the file name from the vector store,
    then the file on disk.  The answer is one of the two strings success
    and failed, success exactly when the file was there to remove; when the
    removal fails the rows and entries are gone all the same. *)
Theorem C7_delete_best_effort (E : Env) (st : State) (course name : string) :
  let r := delete_document E st course name in
  let path := document_path E course name in
  (forall row, In row (db (snd r)) <-> In row (db st) /\ document_name row <> name)
  /\ (forall e, In e (collection (snd r))
                <-> In e (collection st) /\ source (entry_metadata e) <> name)
  /\ fst r = (if Disk.exists_file (disk st) path then "success" else "failed")
  /\ (fst r = "success" \/ fst r = "failed")
  /\ (Disk.remove (disk st) path = None ->
      fst r = "failed"
      /\ disk (snd r) = disk st
      /\ db (snd r) = Registry.delete_by_name (db st) name
      /\ collection (snd r) = Chroma.delete_where_source (collection st) name)
  /\ (forall p, In p (disk (snd r)) <-> In p (disk st) /\ (fst r = "success" -> p <> path)).
Proof.
  intros r path.
  destruct (delete_document_stores E st course name) as [Hdb Hcoll].
  fold r in Hdb, Hcoll.
  split; [|split; [|split; [|split; [|split]]]].
  - intros row. rewrite Hdb. apply delete_by_name_In.
  - intros e. rewrite Hcoll. apply delete_where_source_In.
  - unfold r, delete_document, Disk.remove. simpl. fold path.
    now destruct (Disk.exists_file (disk st) path).
  - unfold r, delete_document. simpl.
    destruct (Disk.remove _ _); simpl; auto.
  - intros Hnone. split; [|split; [|split]]; try assumption.
    + unfold r, delete_document. simpl. fold path. now rewrite Hnone.
    + unfold r, delete_document. simpl. fold path. now rewrite Hnone.
  - intros p. unfold r, delete_document, Disk.remove. simpl. fold path.
    destruct (Disk.exists_file (disk st) path); simpl.
    + rewrite filter_In, negb_true_iff, String.eqb_neq.
      split; intros [Hin Hne]; split; auto.
      intros Heq. now apply (Hne eq_refl).
    + split; [intros Hin; split; [exact Hin | discriminate] | now intros [Hin _]].
Qed.

(** C7 on the demo store: with no such file on disk the answer is failed,
    and the row and the entry of the document are gone. *)
Lemma C7_delete_best_effort_witness :
  let st :=
    snd (embed_file Demo.env [Demo.notes; Demo.slides] Demo.alice Demo.st0) in
  let r := delete_document Demo.env st "MATH2000" "week1.pptx" in
  fst r = "failed"
  /\ List.length (db st) = 2 /\ List.length (db (snd r)) = 1
  /\ List.length (collection st) = 2 /\ List.length (collection (snd r)) = 1.
Proof.
  split; [|repeat split].
  refine (proj1 (proj1 (proj2 (proj2 (proj2 (proj2
    (C7_delete_best_effort Demo.env
       (snd (embed_file Demo.env [Demo.notes; Demo.slides] Demo.alice Demo.st0))
       "MATH2000" "week1.pptx"))))) _)).
  reflexivity.
Defined.

(** C9. The rows and the entries that deletion removes are chosen by the
    file name alone: the registry and the vector store end up the same
    whatever course code is given, and a row or an entry with that file
    name is removed whatever course it belongs to.  The course code only
    enters the path of the file removed from disk. *)
Theorem C9_delete_ignores_course
        (E : Env) (st : State) (course course' name : string) :
  let st1 := snd (delete_document E st course name) in
  let st2 := snd (delete_document E st course' name) in
  db st1 = db st2
  /\ collection st1 = collection st2
  /\ (forall row, In row (db st) -> document_name row = name -> ~ In row (db st1))
  /\ (forall e, In e (collection st) -> source (entry_metadata e) = name ->
                ~ In e (collection st1))
  /\ (forall row, In row (db st) -> document_name row <> name -> In row (db st1))
  /\ (forall e, In e (collection st) -> source (entry_metadata e) <> name ->
                In e (collection st1)).
Proof.
  intros st1 st2.
  destruct (delete_document_stores E st course name) as [Hdb1 Hcoll1].
  destruct (delete_document_stores E st course' name) as [Hdb2 Hcoll2].
  fold st1 in Hdb1, Hcoll1. fold st2 in Hdb2, Hcoll2.
  split; [congruence|]. split; [congruence|].
  split; [|split; [|split]].
  - intros row _ Hname Hin. rewrite Hdb1 in Hin.
    apply delete_by_name_In in Hin. now destruct Hin.
  - intros e _ Hname Hin. rewrite Hcoll1 in Hin.
    apply delete_where_source_In in Hin. now destruct Hin.
  - intros row Hin Hname. rewrite Hdb1. now apply delete_by_name_In.
  - intros e Hin Hname. rewrite Hcoll1. now apply delete_where_source_In.
Qed.

(** C9 on the demo store: the same document name under two courses; one
    deletion for the first course empties the registry and the vector
    store of both. *)
Lemma C9_delete_ignores_course_witness :
  let st :=
    snd (embed_file Demo.env [Demo.notes; Demo.notes_other_course]
           Demo.alice Demo.st0) in
  let r := delete_document Demo.env st "CSCI101L" "ectureNotes.pdf" in
  map course_code (db st) = ["CSCI101L"; "MATH2000"]
  /\ fst r = "success"
  /\ db (snd r) = []
  /\ collection (snd r) = []
  /\ db (snd r) = db (snd (delete_document Demo.env st "MATH2000" "ectureNotes.pdf")).
Proof.
  split; [reflexivity|]. split; [reflexivity|].
  split; [reflexivity|]. split; [reflexivity|].
  exact (proj1 (C9_delete_ignores_course Demo.env
    (snd (embed_file Demo.env [Demo.notes; Demo.notes_other_course]
            Demo.alice Demo.st0))
    "CSCI101L" "MATH2000" "ectureNotes.pdf")).
Defined.

End DeletionClaims.

(** ** What a request does to the registry *)

Section RegistryEffects.

Import Embedder.

Variable E : Env.
Variable user : User.

Lemma accepted_dicts_length (os : list Outcome) :
  List.length (accepted_dicts os) = accepted_count os.
Proof.
  unfold accepted_count.
  induction os as [|o os IH]; [reflexivity|].
  destruct o; simpl; auto.
Qed.

(** One file: an accepted file appends one row, every other outcome leaves
    the table as it was. *)
Lemma embed_one_rows (st : State) (file : UploadFile) :
  match embed_one E user st file with
  | Accepted rd st' =>
      exists row,
        db st' = (db st ++ [row])%list
        /\ pair_of row = dict_pair rd
        /\ user_id row = u_id user
  | o => db (state_after o) = db st
  end.
Proof.
  unfold embed_one.
  destruct (extract E file) as [result|]; [|reflexivity].
  destruct (Registry.first_match _ _ _); [reflexivity|].
  destruct (add_document E st _ user) as [st'|st'] eqn:Hadd.
  - apply add_document_normal in Hadd.
    destruct Hadd as (content & row & _ & _ & Hdb & Hc & Hn & Hu & _).
    exists row. unfold pair_of, dict_pair. rewrite Hc, Hn. auto.
  - apply add_document_raised in Hadd.
    now destruct Hadd as (Hdb & _).
Qed.

Lemma outcomes_rows (files : list UploadFile) :
  forall st : State,
    let os := outcomes E user st files in
    exists rows,
      db (last_state st os) = (db st ++ rows)%list
      /\ map pair_of rows = map dict_pair (accepted_dicts os)
      /\ Forall (fun row => user_id row = u_id user) rows.
Proof.
  induction files as [|file rest IH]; intros st.
  - exists []. simpl. rewrite app_nil_r. auto.
  - simpl.
    pose proof (embed_one_rows st file) as Hrows.
    destruct (embed_one E user st file) as [rd st'|response st'|st'] eqn:Hone;
      simpl in *.
    + destruct Hrows as (row & Hdb & Hpair & Huser).
      destruct (IH st') as (rows & Hdb' & Hpairs & Husers).
      exists (row :: rows). rewrite Hdb', Hdb, <- app_assoc. simpl.
      repeat split; try congruence.
      now constructor.
    + exists []. rewrite app_nil_r. auto.
    + destruct (IH st') as (rows & Hdb' & Hpairs & Husers).
      exists rows. repeat split; congruence.
Qed.

Lemma NoDup_snoc {A : Type} (l : list A) (a : A) :
  NoDup l -> ~ In a l -> NoDup (l ++ [a]).
Proof.
  induction l as [|x l IH]; intros Hnd Hnotin; simpl.
  - constructor; [intros [] | constructor].
  - inversion Hnd as [|? ? Hx Hl]; subst.
    constructor.
    + intros Hin. apply in_app_or in Hin. destruct Hin as [Hin | [Heq | []]].
      * contradiction.
      * apply Hnotin. now left.
    + apply IH; [exact Hl|]. intros Hin. apply Hnotin. now right.
Qed.

Lemma embed_one_keeps_pairs_unique (st : State) (file : UploadFile) :
  NoDup (map pair_of (db st)) ->
  NoDup (map pair_of (db (state_after (embed_one E user st file)))).
Proof.
  intros Hnd.
  pose proof (embed_one_rows st file) as Hrows.
  destruct (embed_one E user st file) as [rd st'|response st'|st'] eqn:Hone;
    simpl in *; try (now rewrite Hrows).
  destruct Hrows as (row & Hdb & Hpair & _).
  apply embed_one_accepted in Hone.
  destruct Hone as (Hc & Hn & _ & Hnreg & _).
  rewrite Hdb, map_app. simpl. apply NoDup_snoc; [exact Hnd|].
  intros Hin. apply in_map_iff in Hin. destruct Hin as (row' & Heq & Hin).
  apply Hnreg. exists row'. split; [exact Hin|].
  rewrite Hpair in Heq. unfold pair_of, dict_pair in Heq.
  injection Heq as Hc' Hn'. split; congruence.
Qed.

Lemma outcomes_keep_pairs_unique (files : list UploadFile) :
  forall st : State,
    NoDup (map pair_of (db st)) ->
    NoDup (map pair_of (db (last_state st (outcomes E user st files)))).
Proof.
  induction files as [|file rest IH]; intros st Hnd; simpl; [exact Hnd|].
  pose proof (embed_one_keeps_pairs_unique st file Hnd) as Hnext.
  destruct (is_duplicate (embed_one E user st file)); simpl.
  - exact Hnext.
  - now apply IH.
Qed.

Lemma NoDup_map_filter {A B : Type} (g : A -> B) (f : A -> bool) (l : list A) :
  NoDup (map g l) -> NoDup (map g (filter f l)).
Proof.
  induction l as [|a l IH]; simpl; intros Hnd; [constructor|].
  inversion Hnd as [|? ? Ha Hl]; subst.
  destruct (f a); simpl; [|now apply IH].
  constructor; [|now apply IH].
  intros Hin. apply Ha. apply in_map_iff in Hin.
  destruct Hin as (x & Hx & Hin). apply filter_In in Hin.
  rewrite <- Hx. apply in_map. now destruct Hin.
Qed.

(** X1. If no two rows of the registry carry the same course code and
    document name, the same holds after any upload request, since a row
    is only inserted for a pair the duplicate check did not find, and
    after any deletion. *)
Theorem X1_registry_pairs_stay_unique
        (files : list UploadFile) (st : State) (course name : string) :
  NoDup (map pair_of (db st)) ->
  NoDup (map pair_of (db (snd (embed_file E files user st))))
  /\ NoDup (map pair_of (db (snd (delete_document E st course name)))).
Proof.
  intros Hnd. split.
  - unfold embed_file. rewrite embed_loop_outcomes. simpl.
    now apply outcomes_keep_pairs_unique.
  - destruct (delete_document_stores E st course name) as [-> _].
    now apply NoDup_map_filter.
Qed.

(** X2. After any upload request the registry is the registry before,
    followed by one row per accepted file in upload order; the row carries
    the pair of that file and the id of the uploading user.  No row is
    changed or removed. *)
Theorem X2_one_row_per_accepted_file (files : list UploadFile) (st : State) :
  let os := outcomes E user st files in
  let st' := snd (embed_file E files user st) in
  exists rows,
    db st' = (db st ++ rows)%list
    /\ map pair_of rows = map dict_pair (accepted_dicts os)
    /\ List.length rows = accepted_count os
    /\ Forall (fun row => user_id row = u_id user) rows.
Proof.
  intros os st'. unfold st', embed_file. rewrite embed_loop_outcomes. simpl.
  destruct (outcomes_rows files st) as (rows & Hdb & Hpairs & Husers).
  exists rows. fold os in Hdb, Hpairs.
  repeat split; try assumption.
  rewrite <- accepted_dicts_length, <- (length_map pair_of), Hpairs.
  apply length_map.
Qed.

End RegistryEffects.

(** X1 on a batch that repeats a file name under another course. *)
Lemma X1_registry_pairs_stay_unique_witness :
  let st' :=
    snd (Embedder.embed_file Demo.env
           [Demo.notes; Demo.notes_other_course; Demo.readme]
           Demo.alice Demo.st0) in
  map Embedder.pair_of (db st')
  = [("CSCI101L", "ectureNotes.pdf"); ("MATH2000", "ectureNotes.pdf")]
  /\ NoDup (map Embedder.pair_of (db st')).
Proof.
  split; [reflexivity|].
  apply (X1_registry_pairs_stay_unique Demo.env Demo.alice
           [Demo.notes; Demo.notes_other_course; Demo.readme] Demo.st0
           "CSCI101L" "ectureNotes.pdf").
  constructor.
Defined.

(** ** Files that fail inside a batch *)

Section FailedFiles.

Import Embedder.

Variable E : Env.
Variable user : User.

(** [add_document] by the two calls that may raise. *)
Lemma add_document_cases (st : State) (rd : ResultDict) (content : string) :
  rd_content rd = Some content ->
  add_document E st rd user
  = if collection_add_raises E (collection st) (chunk_batch E rd content)
    then Raised st
    else
      let st1 :=
        tick (set_collection st
                (Chroma.add (collection st) (chunk_batch E rd content))) in
      if db_commit_raises E (db st) (document_row E st rd user)
      then Raised st1
      else Normal (set_db st1 (Registry.insert (db st)
                                 (document_row E st rd user))).
Proof.
  intros Hcontent. unfold add_document. rewrite Hcontent. reflexivity.
Qed.

(** The verdict on one file that is not rejected as a duplicate: it is
    Failed exactly when a call of the [try] block raised, and Accepted
    exactly when none did, in which case it completed ingestion. *)
Lemma embed_one_verdict (st : State) (file : UploadFile) :
  is_duplicate (embed_one E user st file) = false ->
  let o := embed_one E user st file in
  (raises_in E user st file -> is_failed o = true /\ is_accepted o = false)
  /\ (is_failed o = true -> raises_in E user st file)
  /\ (is_accepted o = true ->
      ~ raises_in E user st file /\ ingested E user st (state_after o) file)
  /\ (~ raises_in E user st file -> is_accepted o = true).
Proof.
  unfold embed_one.
  destruct (extract E file) as [content|] eqn:Hex.
  - destruct (Registry.first_match _ _ _); [discriminate|].
    rewrite (add_document_cases st (set_content (new_result_dict file) content)
               content eq_refl).
    destruct (collection_add_raises E _ _) eqn:Hadd;
      [|destruct (db_commit_raises E _ _) eqn:Hcommit]; intros _; simpl.
    + assert (Hr : raises_in E user st file)
        by exact (raises_in_add E user st file content Hex Hadd).
      repeat split; auto; try discriminate;
        try (intros Hn; now contradiction Hn).
    + assert (Hr : raises_in E user st file)
        by exact (raises_in_commit E user st file content Hex Hadd Hcommit).
      repeat split; auto; try discriminate;
        try (intros Hn; now contradiction Hn).
    + assert (Hn : ~ raises_in E user st file).
      { intros [Hnone | c Hc Ha | c Hc Ha Hco].
        - congruence.
        - assert (c = content) by congruence. subst c. congruence.
        - assert (c = content) by congruence. subst c. congruence. }
      split; [intros Hr; now contradiction Hn|].
      split; [discriminate|].
      split; [|reflexivity].
      intros _. split; [exact Hn|].
      exists content. split; [exact Hex|]. split; reflexivity.
  - intros _. simpl.
    assert (Hr : raises_in E user st file)
      by exact (raises_in_extraction E user st file Hex).
    repeat split; auto; try discriminate;
      try (intros Hn; now contradiction Hn).
Qed.

(** The outcome at position [i] of a batch is the verdict on file [i] in
    the state the files before it left. *)
Lemma nth_outcome (files : list UploadFile) :
  forall (st : State) (i : nat) (file : UploadFile) (o : Outcome),
    nth_error files i = Some file ->
    nth_error (outcomes E user st files) i = Some o ->
    o = embed_one E user
          (last_state st (firstn i (outcomes E user st files))) file.
Proof.
  induction files as [|g rest IH]; intros st i file o Hfile Ho.
  - destruct i; discriminate.
  - destruct i as [|i]; simpl in Hfile, Ho.
    + injection Hfile as <-. injection Ho as <-. reflexivity.
    + simpl.
      destruct (is_duplicate (embed_one E user st g)).
      * destruct i; discriminate.
      * simpl. now apply IH.
Qed.

Lemma no_duplicate_nth (os : list Outcome) (i : nat) (o : Outcome) :
  no_duplicate os = true -> nth_error os i = Some o -> is_duplicate o = false.
Proof.
  unfold no_duplicate. intros Hnd Ho.
  apply nth_error_In in Ho.
  rewrite forallb_forall in Hnd.
  apply negb_true_iff. now apply Hnd.
Qed.

(** C6. In a batch where no file is rejected as a duplicate, every file is
    processed and ends Accepted or Failed.  A file is Failed, and so left
    out of the count, exactly when its extraction, the add to the vector
    store or the commit to the registry raised in the state the earlier
    files left; the exception ends that file only and the loop goes on.  A
    file is Accepted exactly when none of them raised, and then it
    completed ingestion: its chunks are in the vector store and its row is
    in the registry.  The response reports the number of accepted files,
    which is the number of rows the request added to the registry. *)
Theorem C6_failed_files_skipped (files : list UploadFile) (st : State) :
  no_duplicate (outcomes E user st files) = true ->
  let os := outcomes E user st files in
  List.length os = List.length files
  /\ accepted_count os + failed_count os = List.length files
  /\ embed_file E files user st
     = (ExtractionResult
          (PyStr.str_of_nat (accepted_count os) ++ " files added to vectorstore."),
        last_state st os)
  /\ (forall i file o,
         nth_error files i = Some file ->
         nth_error os i = Some o ->
         let s := last_state st (firstn i os) in
         (raises_in E user s file -> is_failed o = true /\ is_accepted o = false)
         /\ (is_failed o = true -> raises_in E user s file)
         /\ (is_accepted o = true ->
             ~ raises_in E user s file /\ ingested E user s (state_after o) file)
         /\ (~ raises_in E user s file -> is_accepted o = true))
  /\ (exists rows,
         db (snd (embed_file E files user st)) = (db st ++ rows)%list
         /\ List.length rows = accepted_count os).
Proof.
  intros Hnd os.
  pose proof (outcomes_length E user files st Hnd) as Hlen.
  assert (Hfile : embed_file E files user st
                  = (ExtractionResult
                       (PyStr.str_of_nat (accepted_count os)
                        ++ " files added to vectorstore."),
                     last_state st os)).
  { unfold embed_file. rewrite embed_loop_outcomes.
    unfold response_of. fold os.
    now rewrite (no_duplicate_find os Hnd). }
  split; [exact Hlen|]. split; [|split; [exact Hfile|split]].
  - rewrite <- Hlen. now apply no_duplicate_counts.
  - intros i file o Hi Ho s.
    pose proof (no_duplicate_nth os i o Hnd Ho) as Hdup.
    pose proof (nth_outcome files st i file o Hi Ho) as Heq.
    fold os in Heq. fold s in Heq.
    rewrite Heq in Hdup. rewrite Heq.
    exact (embed_one_verdict s file Hdup).
  - rewrite Hfile. simpl.
    destruct (outcomes_rows E user files st) as (rows & Hdb & Hpairs & _).
    fold os in Hdb, Hpairs.
    exists rows. split; [exact Hdb|].
    rewrite <- accepted_dicts_length, <- (length_map pair_of), Hpairs.
    apply length_map.
Qed.

End FailedFiles.

(** C6 on a batch of five with a foreign key on the course: the broken
    notes fail in extraction, the text file in the vector store, the
    upload for an unknown course in the registry commit; the slides and
    the notes are accepted and counted. *)
Lemma C6_failed_files_skipped_witness :
  let files :=
    [Demo.notes_broken; Demo.slides; Demo.readme; Demo.unknown_course;
     Demo.notes] in
  let os := Embedder.outcomes Demo.env_foreign_key Demo.alice Demo.st0 files in
  Embedder.no_duplicate os = true
  /\ map Embedder.is_failed os = [true; false; true; true; false]
  /\ fst (Embedder.embed_file Demo.env_foreign_key files Demo.alice Demo.st0)
     = ExtractionResult "2 files added to vectorstore."
  /\ map document_name
         (db (snd (Embedder.embed_file Demo.env_foreign_key files
                     Demo.alice Demo.st0)))
     = ["week1.pptx"; "ectureNotes.pdf"].
Proof.
  split; [reflexivity|]. split; [reflexivity|]. split; [|reflexivity].
  refine (eq_trans
            (f_equal fst
               (proj1 (proj2 (proj2
                  (C6_failed_files_skipped Demo.env_foreign_key Demo.alice
                     [Demo.notes_broken; Demo.slides; Demo.readme;
                      Demo.unknown_course; Demo.notes]
                     Demo.st0 _))))) _); reflexivity.
Defined.

(** ** Chunk identifiers *)

Section ChunkIds.

Import PyStr Embedder.

Lemma append_inv_head (p s t : string) : p ++ s = p ++ t -> s = t.
Proof.
  induction p as [|c p IH]; simpl; intros H; [exact H|].
  injection H as H. now apply IH.
Qed.

Lemma str_of_nat_inj (i j : nat) : str_of_nat i = str_of_nat j -> i = j.
Proof.
  unfold str_of_nat. intros H.
  apply (f_equal NilEmpty.uint_of_string) in H.
  rewrite !NilEmpty.usu in H. injection H as H.
  apply (f_equal Nat.of_uint) in H.
  now rewrite !Unsigned.of_to in H.
Qed.

Lemma digits_no_dash (d : Decimal.uint) :
  ~ In "-"%char (chars (NilEmpty.string_of_uint d)).
Proof.
  induction d; simpl; intros H;
    try (destruct H as [H | H]; [discriminate H | now apply IHd]).
  exact H.
Qed.

(** Two lists cut at the last occurrence of a character. *)
Lemma split_at_last {A : Type} (a : A) (l1 l2 r1 r2 : list A) :
  (l1 ++ a :: r1 = l2 ++ a :: r2)%list ->
  ~ In a r1 -> ~ In a r2 ->
  l1 = l2 /\ r1 = r2.
Proof.
  intros H H1 H2.
  apply (f_equal (@rev A)) in H.
  rewrite !rev_app_distr in H. simpl in H. rewrite <- !app_assoc in H.
  simpl in H.
  assert (Hgen : forall x y x' y' : list A,
             (x ++ a :: y = x' ++ a :: y')%list ->
             ~ In a x -> ~ In a x' -> x = x' /\ y = y').
  { induction x as [|b x IH]; intros y [|b' x'] y' Heq Hx Hx'; simpl in *.
    - injection Heq as Heq. auto.
    - injection Heq as Hb Heq. subst b'. exfalso. apply Hx'. now left.
    - injection Heq as Hb Heq. subst b. exfalso. apply Hx. now left.
    - injection Heq as Hb Heq. subst b'.
      destruct (IH y x' y' Heq) as [-> ->]; auto. }
  destruct (Hgen _ _ _ _ H) as [Hr Hl].
  - now rewrite <- in_rev.
  - now rewrite <- in_rev.
  - split.
    + rewrite <- (rev_involutive l1), <- (rev_involutive l2). now rewrite Hl.
    + rewrite <- (rev_involutive r1), <- (rev_involutive r2). now rewrite Hr.
Qed.

Lemma app_same_length {A : Type} (l1 l2 r1 r2 : list A) :
  (l1 ++ r1 = l2 ++ r2)%list -> List.length l1 = List.length l2 ->
  l1 = l2 /\ r1 = r2.
Proof.
  revert l2. induction l1 as [|a l1 IH]; intros [|b l2] H Hlen;
    simpl in *; try discriminate; [auto|].
  injection H as -> H. injection Hlen as Hlen.
  destruct (IH l2 H Hlen) as [-> ->]. auto.
Qed.

(** A file name is determined by its course code and document name joined
    by a dash, because the course code has a fixed width. *)
Lemma glued_pair_inj (F G : list ascii) :
  (firstn 8 F ++ "-"%char :: skipn 8 F
   = firstn 8 G ++ "-"%char :: skipn 8 G)%list ->
  F = G.
Proof.
  intros H.
  assert (Hlen : List.length F = List.length G).
  { apply (f_equal (@List.length ascii)) in H.
    rewrite !length_app, !length_firstn in H.
    cbn [List.length] in H. rewrite !length_skipn in H. lia. }
  assert (Hl : List.length (firstn 8 F) = List.length (firstn 8 G)).
  { rewrite !length_firstn. now rewrite Hlen. }
  assert (HF : F = (firstn 8 F ++ skipn 8 F)%list)
    by (symmetry; apply firstn_skipn).
  assert (HG : G = (firstn 8 G ++ skipn 8 G)%list)
    by (symmetry; apply firstn_skipn).
  revert H Hl HF HG.
  generalize (firstn 8 F) (skipn 8 F) (firstn 8 G) (skipn 8 G).
  intros hF tF hG tG H Hl HF HG.
  destruct (app_same_length _ _ _ _ H Hl) as [Hhead Htail].
  injection Htail as Htail. congruence.
Qed.

Lemma chars_chunk_id (rd : ResultDict) (i : nat) :
  chars (chunk_id rd i)
  = ((chars (rd_course_code rd) ++ "-"%char :: chars (rd_filename rd))
       ++ "-"%char :: chars (str_of_nat i))%list.
Proof.
  unfold chunk_id.
  rewrite !chars_append.
  change (chars "-") with ["-"%char].
  repeat (rewrite <- app_assoc; cbn [app]). reflexivity.
Qed.

Lemma chunk_id_inj (rd : ResultDict) (i j : nat) :
  chunk_id rd i = chunk_id rd j -> i = j.
Proof.
  unfold chunk_id. intros H.
  apply append_inv_head in H. now apply str_of_nat_inj.
Qed.

Lemma zip_entries_documents (ids documents : list string)
      (metadatas : list Metadata) :
  List.length ids = List.length documents ->
  List.length ids = List.length metadatas ->
  map entry_document (Chroma.zip_entries ids documents metadatas) = documents
  /\ map entry_metadata (Chroma.zip_entries ids documents metadatas) = metadatas.
Proof.
  revert documents metadatas.
  induction ids as [|i ids IH]; intros [|d ds] [|m ms] Hd Hm;
    simpl in *; try discriminate; [auto|].
  destruct (IH ds ms) as [H1 H2]; try congruence.
  now rewrite H1, H2.
Qed.

Lemma chunk_id_names_file (f g : UploadFile) (i j : nat) :
  chunk_id (new_result_dict f) i = chunk_id (new_result_dict g) j ->
  filename f = filename g /\ i = j.
Proof.
  intros H. apply (f_equal chars) in H. rewrite !chars_chunk_id in H.
  apply split_at_last in H; try apply digits_no_dash.
  destruct H as [Hpair Hdigits].
  destruct (result_dict_chars f) as [Hcf Hnf].
  destruct (result_dict_chars g) as [Hcg Hng].
  rewrite Hcf, Hnf, Hcg, Hng in Hpair.
  apply glued_pair_inj in Hpair.
  split.
  - now apply chars_inj.
  - apply str_of_nat_inj. now apply chars_inj.
Qed.

(** The entries of a batch: identifier and metadata of each. *)
Lemma chunk_batch_entries (E : Env) (rd : ResultDict) (content : string)
      (e : Entry) :
  In e (chunk_batch E rd content) ->
  (exists i, entry_id e = chunk_id rd i)
  /\ source (entry_metadata e) = rd_filename rd
  /\ md_course_code (entry_metadata e) = rd_course_code rd.
Proof.
  intros He. split.
  - assert (Hid : In (entry_id e) (map entry_id (chunk_batch E rd content)))
      by now apply in_map.
    rewrite batch_ids in Hid. unfold chunk_ids in Hid.
    apply in_map_iff in Hid. destruct Hid as (i & Hi & _).
    exists i. now rewrite <- Hi.
  - set (docs := split_text E 800 200 content).
    assert (Hlen1 : List.length (chunk_ids rd docs) = List.length docs).
    { unfold chunk_ids. now rewrite length_map, length_seq. }
    assert (Hlen2 : List.length (chunk_ids rd docs)
                    = List.length (chunk_metadatas rd docs)).
    { unfold chunk_metadatas. now rewrite length_map. }
    destruct (zip_entries_documents _ _ _ Hlen1 Hlen2) as [_ Hmds].
    assert (Hmd : In (entry_metadata e) (chunk_metadatas rd docs)).
    { rewrite <- Hmds. now apply in_map. }
    unfold chunk_metadatas in Hmd. apply in_map_iff in Hmd.
    destruct Hmd as (d & Hd & _). rewrite <- Hd. auto.
Qed.

(** X3. What [add_document] hands to the vector store for a content: the
    chunks of the splitter in their order, chunk [i] under the identifier
    made of the course code, the document name and [i]; these identifiers
    are pairwise distinct, and every entry carries the document name as
    source and the course code of the file. *)
Theorem X3_chunk_batch_shape (E : Env) (rd : ResultDict) (content : string) :
  let docs := split_text E 800 200 content in
  let batch := chunk_batch E rd content in
  map entry_document batch = docs
  /\ map entry_id batch = map (chunk_id rd) (seq 0 (List.length docs))
  /\ NoDup (map entry_id batch)
  /\ Forall (fun e => source (entry_metadata e) = rd_filename rd
                      /\ md_course_code (entry_metadata e) = rd_course_code rd)
            batch.
Proof.
  intros docs batch.
  assert (Hids : map entry_id batch = map (chunk_id rd) (seq 0 (List.length docs))).
  { apply (batch_ids E rd content). }
  assert (Hlen1 : List.length (chunk_ids rd docs) = List.length docs).
  { unfold chunk_ids. now rewrite length_map, length_seq. }
  assert (Hlen2 : List.length (chunk_ids rd docs)
                  = List.length (chunk_metadatas rd docs)).
  { unfold chunk_metadatas. now rewrite length_map. }
  destruct (zip_entries_documents _ _ _ Hlen1 Hlen2) as [Hdocs Hmds].
  fold docs in Hdocs, Hmds.
  split; [exact Hdocs|]. split; [exact Hids|]. split.
  - rewrite Hids. apply NoDup_map_NoDup_ForallPairs; [|apply seq_NoDup].
    intros i j _ _ Heq. now apply (chunk_id_inj rd).
  - apply Forall_forall. intros e He.
    now destruct (chunk_batch_entries E rd content e He) as (_ & Hs & Hc).
Qed.

(** X4. The identifier of a chunk determines the upload it came from:
    chunk [i] of one file and chunk [j] of another have the same
    identifier exactly when the two file names are equal and [i = j].
    Uploads with different names therefore never share an identifier. *)
Theorem X4_chunk_id_determines_file (f g : UploadFile) (i j : nat) :
  chunk_id (new_result_dict f) i = chunk_id (new_result_dict g) j
  <-> filename f = filename g /\ i = j.
Proof.
  split.
  - apply chunk_id_names_file.
  - intros [Hname ->]. unfold chunk_id, new_result_dict. simpl.
    now rewrite Hname.
Qed.

End ChunkIds.

(** ** What a request does to the vector store *)

Section StoreEffects.

Import Embedder.

Variable E : Env.
Variable user : User.

Lemma embed_one_collection (st : State) (file : UploadFile) :
  collection (state_after (embed_one E user st file)) = collection st
  \/ exists content,
       collection (state_after (embed_one E user st file))
       = Chroma.add (collection st)
           (chunk_batch E (set_content (new_result_dict file) content) content).
Proof.
  unfold embed_one.
  destruct (extract E file) as [result|]; [|now left].
  destruct (Registry.first_match _ _ _); [now left|].
  destruct (add_document E st _ user) as [st'|st'] eqn:Hadd; simpl.
  - apply add_document_normal in Hadd.
    destruct Hadd as (content & row & Hcontent & Hcoll & _).
    simpl in Hcontent. injection Hcontent as <-. right. now exists result.
  - apply add_document_raised in Hadd.
    destruct Hadd as (_ & _ & [Hcoll | (content & Hcontent & Hcoll)]).
    + now left.
    + simpl in Hcontent. injection Hcontent as <-. right. now exists result.
Qed.

Lemma batch_well_keyed (file : UploadFile) (content : string) (e : Entry) :
  In e (chunk_batch E (set_content (new_result_dict file) content) content) ->
  (exists i, entry_id e = chunk_id (new_result_dict file) i)
  /\ entry_pair e = dict_pair (new_result_dict file).
Proof.
  intros He. apply chunk_batch_entries in He.
  destruct He as ((i & Hi) & Hs & Hc). split.
  - exists i. exact Hi.
  - unfold entry_pair, dict_pair. now rewrite Hs, Hc.
Qed.

Lemma add_keeps_well_keyed (coll : Chroma.t) (file : UploadFile)
      (content : string) :
  well_keyed coll ->
  well_keyed
    (Chroma.add coll
       (chunk_batch E (set_content (new_result_dict file) content) content)).
Proof.
  intros Hwk e He. unfold Chroma.add in He.
  apply in_app_or in He. destruct He as [He | He].
  - apply filter_In in He. now apply Hwk.
  - destruct (batch_well_keyed file content e He) as ((i & Hi) & Hp).
    now exists file, i.
Qed.

(** An entry of another pair has none of the identifiers of the batch. *)
Lemma other_pair_not_in_batch (coll : Chroma.t) (file : UploadFile)
      (content : string) (e : Entry) :
  well_keyed coll ->
  In e coll ->
  entry_pair e <> dict_pair (new_result_dict file) ->
  Chroma.has_id
    (chunk_batch E (set_content (new_result_dict file) content) content)
    (entry_id e) = false.
Proof.
  intros Hwk He Hpair.
  destruct (Chroma.has_id _ (entry_id e)) eqn:Hhas; [|reflexivity].
  exfalso. apply Hpair.
  unfold Chroma.has_id in Hhas. apply existsb_exists in Hhas.
  destruct Hhas as (e' & He' & Heq). apply String.eqb_eq in Heq.
  destruct (batch_well_keyed file content e' He') as ((j & Hj) & _).
  destruct (Hwk e He) as (f & i & Hi & Hp).
  rewrite Hp.
  assert (Hname : filename f = filename file).
  { apply (chunk_id_names_file f file i j). congruence. }
  unfold dict_pair, new_result_dict. simpl. now rewrite Hname.
Qed.

(** Adding the chunks of one upload keeps every entry of another pair. *)
Lemma add_keeps_other_pairs (coll : Chroma.t) (file : UploadFile)
      (content : string) (e : Entry) :
  well_keyed coll ->
  In e coll ->
  entry_pair e <> dict_pair (new_result_dict file) ->
  In e (Chroma.add coll
          (chunk_batch E (set_content (new_result_dict file) content) content)).
Proof.
  intros Hwk He Hpair. unfold Chroma.add.
  apply in_or_app. left. apply filter_In. split; [exact He|].
  apply negb_true_iff. now apply (other_pair_not_in_batch coll).
Qed.

Lemma embed_one_keeps_well_keyed (st : State) (file : UploadFile) :
  well_keyed (collection st) ->
  well_keyed (collection (state_after (embed_one E user st file))).
Proof.
  intros Hwk.
  destruct (embed_one_collection st file) as [-> | (content & ->)];
    [exact Hwk | now apply add_keeps_well_keyed].
Qed.

Lemma outcomes_keep_well_keyed (files : list UploadFile) :
  forall st : State,
    well_keyed (collection st) ->
    well_keyed (collection (last_state st (outcomes E user st files))).
Proof.
  induction files as [|file rest IH]; intros st Hwk; simpl; [exact Hwk|].
  pose proof (embed_one_keeps_well_keyed st file Hwk) as Hnext.
  destruct (is_duplicate (embed_one E user st file)); simpl.
  - exact Hnext.
  - now apply IH.
Qed.

Lemma outcomes_keep_other_pairs (files : list UploadFile) :
  forall (st : State) (e : Entry),
    well_keyed (collection st) ->
    In e (collection st) ->
    (forall file, In file files ->
                  entry_pair e <> dict_pair (new_result_dict file)) ->
    In e (collection (last_state st (outcomes E user st files))).
Proof.
  induction files as [|file rest IH]; intros st e Hwk He Hother; simpl;
    [exact He|].
  pose proof (embed_one_keeps_well_keyed st file Hwk) as Hwk'.
  assert (He' : In e (collection (state_after (embed_one E user st file)))).
  { destruct (embed_one_collection st file) as [-> | (content & ->)];
      [exact He|].
    apply add_keeps_other_pairs; auto. apply Hother. now left. }
  destruct (is_duplicate (embed_one E user st file)); simpl.
  - exact He'.
  - apply IH; auto. intros g Hg. apply Hother. now right.
Qed.

Lemma delete_keeps_well_keyed (coll : Chroma.t) (name : string) :
  well_keyed coll -> well_keyed (Chroma.delete_where_source coll name).
Proof.
  intros Hwk e He. unfold Chroma.delete_where_source in He.
  apply filter_In in He. now apply Hwk.
Qed.

(** X5. The vector store stays keyed by upload: if every entry is chunk
    [i] of some upload name, stored under that chunk's identifier with
    the pair that name parses to, this still holds after any upload
    request and after any deletion.  It holds of the empty store. *)
Theorem X5_store_stays_keyed_by_upload
        (files : list UploadFile) (st : State) (course name : string) :
  well_keyed (collection st) ->
  well_keyed (collection (snd (embed_file E files user st)))
  /\ well_keyed (collection (snd (delete_document E st course name))).
Proof.
  intros Hwk. split.
  - unfold embed_file. rewrite embed_loop_outcomes. simpl.
    now apply outcomes_keep_well_keyed.
  - destruct (delete_document_stores E st course name) as [_ ->].
    now apply delete_keeps_well_keyed.
Qed.

(** X6. An upload request does not touch the chunks of other documents:
    in a store keyed by upload, an entry whose course code and source
    differ from the pair of every file of the batch is still there,
    unchanged, after the request, whatever happened to the files. *)
Theorem X6_upload_keeps_other_documents
        (files : list UploadFile) (st : State) (e : Entry) :
  well_keyed (collection st) ->
  In e (collection st) ->
  (forall file, In file files ->
                entry_pair e <> dict_pair (new_result_dict file)) ->
  In e (collection (snd (embed_file E files user st))).
Proof.
  intros Hwk He Hother.
  unfold embed_file. rewrite embed_loop_outcomes. simpl.
  now apply outcomes_keep_other_pairs.
Qed.

End StoreEffects.

(** X5 from the empty store. *)
Lemma X5_store_stays_keyed_by_upload_witness :
  Embedder.well_keyed
    (collection
       (snd (Embedder.embed_file Demo.env [Demo.notes; Demo.slides]
               Demo.alice Demo.st0)))
  /\ Embedder.well_keyed
       (collection
          (snd (Embedder.delete_document Demo.env Demo.st0
                  "CSCI101L" "ectureNotes.pdf"))).
Proof.
  apply (X5_store_stays_keyed_by_upload Demo.env Demo.alice
           [Demo.notes; Demo.slides] Demo.st0 "CSCI101L" "ectureNotes.pdf").
  intros e [].
Defined.

(** X6 on the lecture notes: a later request with the slides and the text
    file leaves their chunk in the store. *)
Lemma X6_upload_keeps_other_documents_witness :
  let st1 :=
    snd (Embedder.embed_file Demo.env [Demo.notes] Demo.alice Demo.st0) in
  let e :=
    mkEntry "CSCI101L-ectureNotes.pdf-0" "lecture one"
            (mkMetadata "ectureNotes.pdf" "CSCI101L") in
  collection st1 = [e]
  /\ In e (collection
             (snd (Embedder.embed_file Demo.env [Demo.slides; Demo.readme]
                     Demo.alice st1))).
Proof.
  split; [reflexivity|].
  apply (X6_upload_keeps_other_documents Demo.env Demo.alice
           [Demo.slides; Demo.readme]).
  - intros e [<- | []]. exists Demo.notes, 0. split; reflexivity.
  - left. reflexivity.
  - intros file [<- | [<- | []]]; discriminate.
Defined.

(** ** Deletion, then what? *)

Section AfterDeletion.

Import Embedder.

Variable E : Env.

Lemma filter_idem {A : Type} (f : A -> bool) (l : list A) :
  filter f (filter f l) = filter f l.
Proof.
  apply forallb_filter_id, forallb_filter.
Qed.

Lemma remove_twice (d d' : Disk.t) (path : string) :
  Disk.remove d path = Some d' -> Disk.remove d' path = None.
Proof.
  unfold Disk.remove.
  destruct (Disk.exists_file d path); [|discriminate].
  intros H. injection H as <-.
  destruct (Disk.exists_file _ path) eqn:Hex; [|reflexivity].
  unfold Disk.exists_file in Hex. apply existsb_exists in Hex.
  destruct Hex as (q & Hin & Heq).
  apply filter_In in Hin. destruct Hin as [_ Hneq].
  now rewrite Heq in Hneq.
Qed.

(** X7. Deleting the same document a second time answers failed and
    changes nothing: the rows and entries are gone already and so is the
    file, or it was never there. *)
Theorem X7_second_deletion_fails (st : State) (course name : string) :
  let st1 := snd (delete_document E st course name) in
  delete_document E st1 course name = ("failed", st1).
Proof.
  destruct st as [coll rows files n].
  unfold delete_document, delete_document_from_vectorstore, set_db,
    set_collection, set_disk. simpl.
  destruct (Disk.remove files (document_path E course name)) as [d|] eqn:Hrm;
    simpl.
  - rewrite (remove_twice _ _ _ Hrm).
    unfold Registry.delete_by_name, Chroma.delete_where_source.
    now rewrite !filter_idem.
  - rewrite Hrm.
    unfold Registry.delete_by_name, Chroma.delete_where_source.
    now rewrite !filter_idem.
Qed.

Lemma no_match_after_deletion (rows : Registry.t) (c name : string) :
  Registry.first_match (Registry.delete_by_name rows name) c name = None.
Proof.
  destruct (Registry.first_match _ c name) eqn:Hfirst; [|reflexivity].
  assert (Hsome : Registry.first_match (Registry.delete_by_name rows name) c name
                  <> None) by now rewrite Hfirst.
  apply first_match_found in Hsome.
  destruct Hsome as (row & Hin & _ & Hname).
  apply delete_by_name_In in Hin. now destruct Hin.
Qed.

(** X8. After a deletion, whatever it answered and whatever course it was
    given, an upload whose document name is the deleted name is never
    rejected as a duplicate. *)
Theorem X8_upload_after_deletion_not_duplicate
        (user : User) (st : State) (course : string) (file : UploadFile) :
  let st1 :=
    snd (delete_document E st course (rd_filename (new_result_dict file))) in
  is_duplicate (embed_one E user st1 file) = false.
Proof.
  intros st1.
  destruct (delete_document_stores E st course
              (rd_filename (new_result_dict file))) as [Hdb _].
  fold st1 in Hdb.
  unfold embed_one.
  destruct (extract E file) as [result|]; [|reflexivity].
  simpl. rewrite Hdb.
  change (PyStr.slice (filename file) (Some 8%Z) None)
    with (rd_filename (new_result_dict file)).
  rewrite no_match_after_deletion.
  now destruct (add_document E st1 _ user).
Qed.

(** The value of a query in terms of the nearest entry of the scope. *)
Lemma query_value (st : State) (message course : string) :
  query E st message course
  = Some match Chroma.nearest (embedding_distance E) (collection st)
                              message 1 course with
         | e :: _ =>
             if PrimFloat.ltb (embedding_distance E message (entry_document e))
                              1%float
             then (entry_document e, source (entry_metadata e))
             else ("", "")
         | [] => ("", "")
         end.
Proof.
  unfold query, Chroma.query. simpl.
  destruct (Chroma.nearest _ _ message 1 course) as [|e l]; simpl;
    [reflexivity|].
  now destruct (PrimFloat.ltb _ _).
Qed.

(** X9. After a deletion no query returns a chunk of the deleted source:
    an answer other than the pair of empty strings is the text and source
    of an entry that was in the store before, has the course asked for,
    and whose source is not the deleted name. *)
Theorem X9_query_after_deletion
        (st : State) (course name message scope text src : string) :
  query E (snd (delete_document E st course name)) message scope
  = Some (text, src) ->
  (text, src) = ("", "")
  \/ (src <> name
      /\ exists e,
           In e (collection st)
           /\ entry_document e = text
           /\ source (entry_metadata e) = src
           /\ md_course_code (entry_metadata e) = scope).
Proof.
  intros Hq. rewrite query_value in Hq.
  destruct (delete_document_stores E st course name) as [_ Hcoll].
  destruct (Chroma.nearest _ _ message 1 scope) as [|e l] eqn:Hnear.
  - left. now injection Hq as <- <-.
  - assert (He : In e (Chroma.nearest (embedding_distance E)
                         (collection (snd (delete_document E st course name)))
                         message 1 scope)) by (rewrite Hnear; now left).
    apply nearest_in_scope in He. destruct He as [Hin Hscope].
    rewrite Hcoll in Hin. apply delete_where_source_In in Hin.
    destruct Hin as [Hin Hsrc].
    destruct (PrimFloat.ltb _ _).
    + right. injection Hq as <- <-. split; [exact Hsrc|].
      now exists e.
    + left. now injection Hq as <- <-.
Qed.

End AfterDeletion.

(** X9 on the demo store: the slides are deleted, the lecture notes are
    still found. *)
Lemma X9_query_after_deletion_witness :
  let st :=
    snd (Embedder.embed_file Demo.env [Demo.notes; Demo.slides]
           Demo.alice Demo.st0) in
  Embedder.query Demo.env
    (snd (Embedder.delete_document Demo.env st "MATH2000" "week1.pptx"))
    "lecture one" "CSCI101L"
  = Some ("lecture one", "ectureNotes.pdf")
  /\ (("lecture one", "ectureNotes.pdf") = ("", "")
      \/ ("ectureNotes.pdf" <> "week1.pptx"
          /\ exists e,
               In e (collection st)
               /\ entry_document e = "lecture one"
               /\ source (entry_metadata e) = "ectureNotes.pdf"
               /\ md_course_code (entry_metadata e) = "CSCI101L")).
Proof.
  split; [reflexivity|].
  apply (X9_query_after_deletion Demo.env
           (snd (Embedder.embed_file Demo.env [Demo.notes; Demo.slides]
                   Demo.alice Demo.st0))
           "MATH2000" "week1.pptx" "lecture one" "CSCI101L").
  reflexivity.
Defined.

(** ** Courses *)

Section CourseClaims.

Import Embedder.

Lemma filter_none {A : Type} (f : A -> bool) (l : list A) :
  (forall x, In x l -> f x = false) -> filter f l = [].
Proof.
  induction l as [|a l IH]; intros H; simpl; [reflexivity|].
  rewrite (H a) by now left. apply IH. intros x Hx. apply H. now right.
Qed.

Lemma violates_false (cs : Courses.t) (c x : Course) :
  Courses.violates cs c = false ->
  In x cs ->
  course_id x <> course_id c /\ subject_name x <> subject_name c.
Proof.
  unfold Courses.violates. intros Hv Hin.
  destruct (String.eqb_spec (course_id x) (course_id c)) as [Hid|Hid];
    destruct (String.eqb_spec (subject_name x) (subject_name c)) as [Hn|Hn];
    try (split; assumption); exfalso;
    assert (Htrue : existsb
                      (fun y => orb (String.eqb (course_id y) (course_id c))
                                    (String.eqb (subject_name y) (subject_name c)))
                      cs = true)
      by (apply existsb_exists; exists x; split; [exact Hin|];
          try rewrite Hid; try rewrite Hn; rewrite ?String.eqb_refl;
          auto using orb_true_r);
    congruence.
Qed.

Lemma add_subject_success (params : AddSubjectParams) (cs cs' : Courses.t)
      (message : string) :
  add_subject params cs = Some (message, cs') ->
  message = "success"
  /\ cs' = (cs ++ [mkCourse (asp_course_code params) (asp_subject_name params)])%list
  /\ Courses.violates cs (mkCourse (asp_course_code params)
                                   (asp_subject_name params)) = false.
Proof.
  unfold add_subject, Courses.insert.
  destruct (Courses.violates cs _) eqn:Hv; [discriminate|].
  intros H. injection H as <- <-. auto.
Qed.

Lemma first_by_subject_app (cs : Courses.t) (c : Course) (s : string) :
  Courses.first_by_subject (cs ++ [c])%list s
  = match Courses.first_by_subject cs s with
    | Some r => Some r
    | None => if String.eqb (subject_name c) s then Some c else None
    end.
Proof.
  unfold Courses.first_by_subject. rewrite filter_app. simpl.
  destruct (filter _ cs) as [|r l]; simpl.
  - now destruct (String.eqb (subject_name c) s).
  - reflexivity.
Qed.

(** X10. When [add_subject] succeeds, looking up the new subject name
    gives the new course code, every other subject resolves as before, and
    the list of subjects is the old one followed by the new name. *)
Theorem X10_add_subject_then_lookup
        (params : AddSubjectParams) (cs cs' : Courses.t) (message : string) :
  add_subject params cs = Some (message, cs') ->
  message = "success"
  /\ get_course_code (mkGetCourseParams (asp_subject_name params)) cs'
     = asp_course_code params
  /\ (forall p,
         gcp_subject_name p <> asp_subject_name params ->
         get_course_code p cs' = get_course_code p cs)
  /\ get_all_subjects cs'
     = (get_all_subjects cs ++ [asp_subject_name params])%list.
Proof.
  intros Hadd. apply add_subject_success in Hadd.
  destruct Hadd as (-> & -> & Hv).
  split; [reflexivity|].
  unfold get_course_code, get_all_subjects.
  split; [|split].
  - rewrite first_by_subject_app. simpl.
    assert (Hnone : Courses.first_by_subject cs (asp_subject_name params) = None).
    { unfold Courses.first_by_subject. rewrite filter_none; [reflexivity|].
      intros x Hx. apply String.eqb_neq.
      now destruct (violates_false cs _ x Hv Hx). }
    rewrite Hnone, String.eqb_refl. reflexivity.
  - intros p Hp. rewrite first_by_subject_app. simpl.
    destruct (Courses.first_by_subject cs (gcp_subject_name p)); [reflexivity|].
    apply not_eq_sym in Hp. apply String.eqb_neq in Hp. now rewrite Hp.
  - rewrite map_app. reflexivity.
Qed.

(** X11. [add_subject] keeps the course codes pairwise distinct and the
    subject names pairwise distinct: a row that would repeat either makes
    the commit raise. *)
Theorem X11_courses_stay_unique
        (params : AddSubjectParams) (cs cs' : Courses.t) (message : string) :
  NoDup (map course_id cs) ->
  NoDup (map subject_name cs) ->
  add_subject params cs = Some (message, cs') ->
  NoDup (map course_id cs') /\ NoDup (map subject_name cs').
Proof.
  intros Hids Hnames Hadd. apply add_subject_success in Hadd.
  destruct Hadd as (_ & -> & Hv).
  rewrite !map_app. simpl.
  split; apply NoDup_snoc; try assumption;
    intros Hin; apply in_map_iff in Hin; destruct Hin as (x & Heq & Hx);
    destruct (violates_false cs _ x Hv Hx) as [Hid Hn]; simpl in *; congruence.
Qed.

(** X12. With pairwise distinct subject names, [get_course_code] gives
    for the subject of every stored course the code of that course; for a
    subject no course carries it gives the empty string. *)
Theorem X12_lookup_of_stored_course (cs : Courses.t) :
  NoDup (map subject_name cs) ->
  (forall c, In c cs ->
             get_course_code (mkGetCourseParams (subject_name c)) cs
             = course_id c)
  /\ (forall p, (forall c, In c cs -> subject_name c <> gcp_subject_name p) ->
                get_course_code p cs = "").
Proof.
  intros Hnd. split.
  - induction cs as [|x cs IH]; intros c Hin; [contradiction|].
    simpl in Hnd. inversion Hnd as [|? ? Hx Hrest]; subst.
    unfold get_course_code, Courses.first_by_subject. simpl.
    destruct (String.eqb_spec (subject_name x) (subject_name c)) as [Heq|Hneq].
    + simpl. destruct Hin as [-> | Hin]; [reflexivity|].
      exfalso. apply Hx. rewrite Heq. now apply in_map.
    + destruct Hin as [-> | Hin]; [now contradiction Hneq|].
      now apply IH.
  - intros p Hno. unfold get_course_code, Courses.first_by_subject.
    rewrite filter_none; [reflexivity|].
    intros x Hx. apply String.eqb_neq. now apply Hno.
Qed.

End CourseClaims.

(** X10 on the demo table. *)
Lemma X10_add_subject_then_lookup_witness :
  Embedder.add_subject (mkAddSubjectParams "PHYS3000" "Physics") Demo.courses
  = Some ("success", (Demo.courses ++ [mkCourse "PHYS3000" "Physics"])%list)
  /\ Embedder.get_course_code (mkGetCourseParams "Physics")
       (Demo.courses ++ [mkCourse "PHYS3000" "Physics"])%list
     = "PHYS3000".
Proof.
  split; [reflexivity|].
  exact (proj1 (proj2
    (X10_add_subject_then_lookup (mkAddSubjectParams "PHYS3000" "Physics")
       Demo.courses _ "success" eq_refl))).
Defined.

(** X11 on the demo table. *)
Lemma X11_courses_stay_unique_witness :
  NoDup (map course_id (Demo.courses ++ [mkCourse "PHYS3000" "Physics"])%list)
  /\ NoDup (map subject_name
              (Demo.courses ++ [mkCourse "PHYS3000" "Physics"])%list).
Proof.
  apply (X11_courses_stay_unique (mkAddSubjectParams "PHYS3000" "Physics")
           Demo.courses _ "success").
  - repeat constructor; simpl; intuition discriminate.
  - repeat constructor; simpl; intuition discriminate.
  - reflexivity.
Defined.

(** X12 on the demo table. *)
Lemma X12_lookup_of_stored_course_witness :
  Embedder.get_course_code (mkGetCourseParams "Calculus") Demo.courses
  = "MATH2000"
  /\ Embedder.get_course_code (mkGetCourseParams "Poetry") Demo.courses = "".
Proof.
  assert (Hnd : NoDup (map subject_name Demo.courses))
    by (repeat constructor; simpl; intuition discriminate).
  destruct (X12_lookup_of_stored_course Demo.courses Hnd) as [Hstored Hnone].
  split.
  - apply (Hstored (mkCourse "MATH2000" "Calculus")). right. now left.
  - apply (Hnone (mkGetCourseParams "Poetry")).
    intros c [<- | [<- | []]]; discriminate.
Defined.

(** ** Listing *)

Section ListingClaims.

Import Embedder.

Variable E : Env.

Lemma filter_comm {A : Type} (f g : A -> bool) (l : list A) :
  filter f (filter g l) = filter g (filter f l).
Proof.
  induction l as [|a l IH]; simpl; [reflexivity|].
  destruct (f a) eqn:Hf, (g a) eqn:Hg; simpl; rewrite ?Hf, ?Hg, IH; reflexivity.
Qed.

(** X13. An accepted upload shows up in the listing of its course: if the
    subject asked for resolves to the course code the file name starts
    with, [list_documents] right after returns a row with the document
    name of the file and the id of the uploader; and every row it returns
    carries the course code it reports. *)
Theorem X13_accepted_upload_is_listed
        (user : User) (st st' : State) (file : UploadFile) (rd : ResultDict)
        (cs : Courses.t) (data : DocumentListParams) :
  embed_one E user st file = Accepted rd st' ->
  get_course_code (mkGetCourseParams (dlp_subject data)) cs
  = rd_course_code (new_result_dict file) ->
  let answer := list_documents data cs st' in
  rdl_course_code answer = rd_course_code (new_result_dict file)
  /\ (exists row,
        In row (rdl_documents answer)
        /\ document_name row = rd_filename (new_result_dict file)
        /\ user_id row = u_id user)
  /\ (forall row, In row (rdl_documents answer) ->
                  course_code row = rdl_course_code answer).
Proof.
  intros Hacc Hcode answer.
  unfold answer, list_documents. simpl. rewrite Hcode.
  split; [reflexivity|]. split.
  - pose proof (embed_one_rows E user st file) as Hrows.
    rewrite Hacc in Hrows. destruct Hrows as (row & Hdb & Hpair & Huser).
    apply embed_one_accepted in Hacc. destruct Hacc as (Hc & Hn & _).
    unfold pair_of, dict_pair in Hpair. injection Hpair as Hrc Hrn.
    exists row. split; [|split].
    + unfold Registry.all_by_course. apply filter_In. split.
      * rewrite Hdb. apply in_or_app. right. now left.
      * apply String.eqb_eq. exact (eq_trans Hrc Hc).
    + exact (eq_trans Hrn Hn).
    + exact Huser.
  - intros row Hin. unfold Registry.all_by_course in Hin.
    apply filter_In in Hin. destruct Hin as [_ Heq].
    now apply String.eqb_eq in Heq.
Qed.

(** X14. A deletion takes the document out of every listing: for any
    subject, the rows listed after [delete_document] are the rows listed
    before minus those with the deleted document name, in the same order,
    whatever course code the deletion was given and whatever it answered. *)
Theorem X14_deleted_document_not_listed
        (st : State) (course name : string)
        (cs : Courses.t) (data : DocumentListParams) :
  let before := list_documents data cs st in
  let after := list_documents data cs (snd (delete_document E st course name)) in
  rdl_course_code after = rdl_course_code before
  /\ rdl_documents after = Registry.delete_by_name (rdl_documents before) name
  /\ (forall row, In row (rdl_documents after) -> document_name row <> name).
Proof.
  intros before after.
  destruct (delete_document_stores E st course name) as [Hdb _].
  assert (Hdocs : rdl_documents after
                  = Registry.delete_by_name (rdl_documents before) name).
  { unfold after, before, list_documents. simpl. rewrite Hdb.
    unfold Registry.all_by_course, Registry.delete_by_name.
    apply filter_comm. }
  split; [reflexivity|]. split; [exact Hdocs|].
  intros row Hin. rewrite Hdocs in Hin.
  apply delete_by_name_In in Hin. now destruct Hin.
Qed.

End ListingClaims.

(** X13 on the demo store: the lecture notes listed under Computer
    Science. *)
Lemma X13_accepted_upload_is_listed_witness :
  let st' :=
    Embedder.state_after
      (Embedder.embed_one Demo.env Demo.alice Demo.st0 Demo.notes) in
  map document_name
      (rdl_documents
         (Embedder.list_documents (mkDocumentListParams "Computer Science")
            Demo.courses st'))
  = ["ectureNotes.pdf"]
  /\ exists row,
       In row (rdl_documents
                 (Embedder.list_documents
                    (mkDocumentListParams "Computer Science") Demo.courses st'))
       /\ document_name row = "ectureNotes.pdf"
       /\ user_id row = "u1".
Proof.
  split; [reflexivity|].
  exact (proj1 (proj2
    (X13_accepted_upload_is_listed Demo.env Demo.alice Demo.st0 _ Demo.notes _
       Demo.courses (mkDocumentListParams "Computer Science")
       eq_refl eq_refl))).
Defined.

(** ** Paths and served files *)

Section Paths.

Import PyStr Embedder.

Lemma str_app_assoc (a b c : string) : (a ++ b) ++ c = a ++ b ++ c.
Proof.
  induction a as [|x a IH]; simpl; [reflexivity | now rewrite IH].
Qed.

Lemma app_nonempty (s t : string) : t <> "" -> s ++ t <> "".
Proof.
  destruct s; simpl; [auto | discriminate].
Qed.

Lemma endswith_sep_app (s t : string) :
  t <> "" -> endswith_sep (s ++ t) = endswith_sep t.
Proof.
  intros Ht. induction s as [|c s IH]; [reflexivity|].
  simpl. destruct (s ++ t) as [|a r] eqn:Hst.
  - exfalso. now apply (app_nonempty s t Ht).
  - exact IH.
Qed.

Lemma endswith_sep_cut (s : string) :
  endswith_sep s = true -> exists x, s = x ++ "/".
Proof.
  induction s as [|c s IH]; [discriminate|].
  simpl. destruct s as [|a r].
  - intros H. apply Ascii.eqb_eq in H. subst c. now exists "".
  - intros H. destruct (IH H) as [x Hx]. exists (String c x).
    simpl. now rewrite Hx.
Qed.

Lemma endswith_sep_In (s : string) :
  endswith_sep s = true -> In "/"%char (chars s).
Proof.
  intros H. destruct (endswith_sep_cut s H) as [x ->].
  rewrite chars_append. apply in_or_app. right. now left.
Qed.

Lemma startswith_sep_In (s : string) :
  startswith_sep s = true -> In "/"%char (chars s).
Proof.
  destruct s as [|c s]; [discriminate|].
  simpl. intros H. apply Ascii.eqb_eq in H. now left.
Qed.

(** A joined path ends with the component joined last, right after a
    separator unless the path is that component alone. *)
Lemma join_step_shape (path b : string) :
  join_step path b = b \/ exists y, join_step path b = y ++ "/" ++ b.
Proof.
  unfold join_step.
  destruct (startswith_sep b); [now left|].
  destruct (String.eqb_spec path "") as [-> | Hne]; simpl; [now left|].
  destruct (endswith_sep path) eqn:Hend.
  - destruct (endswith_sep_cut path Hend) as [x ->].
    right. exists x. apply str_app_assoc.
  - right. now exists path.
Qed.

Lemma document_path_shape (E : Env) (course name : string) :
  document_path E course name = name
  \/ exists y, document_path E course name = y ++ "/" ++ name.
Proof.
  unfold document_path, os_path_join. simpl. apply join_step_shape.
Qed.

Lemma prefix_before_sep (A B S C : list ascii) :
  (A ++ "/"%char :: B = S ++ C)%list -> ~ In "/"%char S ->
  exists Q, A = (S ++ Q)%list.
Proof.
  revert A. induction S as [|s S IH]; intros A H Hno.
  - now exists A.
  - destruct A as [|a A]; simpl in H; injection H as Hs H.
    + exfalso. apply Hno. left. now symmetry.
    + subst a. destruct (IH A H) as [Q ->].
      * intros Hin. apply Hno. now right.
      * now exists Q.
Qed.

(** A suffix without separator of a path is a suffix of its last
    component. *)
Lemma suffix_of_last_component (y name p suf : string) :
  y ++ "/" ++ name = p ++ suf -> no_sep suf ->
  exists q, name = q ++ suf.
Proof.
  intros H Hno.
  apply (f_equal (fun s => rev (chars s))) in H.
  rewrite !chars_append in H. simpl in H.
  rewrite !rev_app_distr in H. simpl in H. rewrite <- app_assoc in H.
  simpl in H.
  apply prefix_before_sep in H; [|now rewrite <- in_rev].
  destruct H as [Q HQ].
  exists (string_of_list_ascii (rev Q)).
  apply chars_inj. rewrite chars_append.
  unfold chars at 2. rewrite list_ascii_of_string_of_list_ascii.
  rewrite <- (rev_involutive (chars name)), HQ, rev_app_distr.
  now rewrite rev_involutive.
Qed.

Lemma path_suffix_iff (E : Env) (course name suf : string) :
  no_sep suf ->
  (exists p, document_path E course name = p ++ suf)
  <-> exists q, name = q ++ suf.
Proof.
  intros Hno. split.
  - intros [p Hp].
    destruct (document_path_shape E course name) as [Heq | [y Hy]].
    + exists p. now rewrite <- Heq.
    + rewrite Hy in Hp. now apply (suffix_of_last_component y name p suf).
  - intros [q ->].
    destruct (document_path_shape E course (q ++ suf)) as [Heq | [y Hy]].
    + now exists q.
    + exists (y ++ "/" ++ q). rewrite Hy.
      now rewrite !str_app_assoc.
Qed.

Lemma pdf_pptx_clash (p q : string) : p ++ "pptx" <> q ++ "pdf".
Proof.
  intros H.
  apply (f_equal (fun s => rev (chars s))) in H.
  rewrite !chars_append, !rev_app_distr in H.
  simpl in H. discriminate H.
Qed.

(** X15. The media type of a served file depends on the file name alone,
    although the test reads the end of the whole path: a name ending in
    pdf is served as application/pdf, a name ending in pptx as a
    presentation, and every other name, whatever its extension, under the
    PowerPoint type.  Neither the course code nor the root directory can
    change the type. *)
Theorem X15_media_type_by_name (E : Env) (course name : string) :
  let r := search_documents E course name in
  fr_path r = document_path E course name
  /\ ((exists q, name = q ++ "pdf") -> fr_media_type r = "application/pdf")
  /\ ((exists q, name = q ++ "pptx") ->
      fr_media_type r
      = "application/vnd.openxmlformats-officedocument.presentationml.presentation")
  /\ (~ (exists q, name = q ++ "pdf") -> ~ (exists q, name = q ++ "pptx") ->
      fr_media_type r = "application/vnd.ms-powerpoint").
Proof.
  assert (Hpdf : String.eqb (slice (document_path E course name)
                               (Some (-3)%Z) None) "pdf" = true
                 <-> exists q, name = q ++ "pdf").
  { rewrite String.eqb_eq.
    rewrite (slice_last_eq_iff (document_path E course name) "pdf")
      by (simpl; lia).
    apply path_suffix_iff. unfold no_sep. simpl. intuition discriminate. }
  assert (Hpptx : String.eqb (slice (document_path E course name)
                                (Some (-4)%Z) None) "pptx" = true
                  <-> exists q, name = q ++ "pptx").
  { rewrite String.eqb_eq.
    rewrite (slice_last_eq_iff (document_path E course name) "pptx")
      by (simpl; lia).
    apply path_suffix_iff. unfold no_sep. simpl. intuition discriminate. }
  unfold search_documents.
  destruct (String.eqb (slice (document_path E course name) (Some (-3)%Z) None)
                       "pdf") eqn:T3;
    [|destruct (String.eqb (slice (document_path E course name)
                              (Some (-4)%Z) None) "pptx") eqn:T4];
    simpl; (split; [reflexivity|]); (split; [|split]); intros H1; try intros H2;
    try reflexivity.
  - destruct (proj1 Hpdf eq_refl) as [q Hq]. destruct H1 as [p Hp].
    rewrite Hp in Hq. now apply pdf_pptx_clash in Hq.
  - exfalso. apply H1. now apply Hpdf.
  - apply Hpdf in H1. discriminate H1.
  - exfalso. apply H2. now apply Hpptx.
  - apply Hpdf in H1. discriminate H1.
  - apply Hpptx in H1. discriminate H1.
Qed.

(** The path of a document when neither parameter holds a separator and
    the course code is not empty, as for the parameters of a route. *)
Lemma document_path_closed (E : Env) (course name : string) :
  course <> "" -> no_sep course -> no_sep name ->
  document_path E course name
  = os_path_join (ROOT_DIR E) ["documents"] ++ "/" ++ course ++ "/" ++ name.
Proof.
  intros Hc Hnc Hnn.
  unfold document_path, os_path_join. simpl.
  set (P1 := join_step (ROOT_DIR E) "documents").
  assert (HP1 : exists x, P1 = x ++ "documents").
  { unfold P1, join_step. simpl.
    destruct (orb _ _).
    - now exists (ROOT_DIR E).
    - exists (ROOT_DIR E ++ "/"). now rewrite str_app_assoc. }
  destruct HP1 as [x HP1].
  assert (Hne1 : String.eqb P1 "" = false).
  { apply String.eqb_neq. rewrite HP1. now apply app_nonempty. }
  assert (Hend1 : endswith_sep P1 = false).
  { rewrite HP1, endswith_sep_app by discriminate. reflexivity. }
  assert (Hstep1 : join_step P1 course = P1 ++ "/" ++ course).
  { unfold join_step. rewrite Hne1, Hend1.
    destruct (startswith_sep course) eqn:Hs; [|reflexivity].
    now apply startswith_sep_In in Hs. }
  rewrite Hstep1.
  assert (Hne2 : String.eqb (P1 ++ "/" ++ course) "" = false).
  { apply String.eqb_neq. now apply app_nonempty. }
  assert (Hend2 : endswith_sep (P1 ++ "/" ++ course) = false).
  { rewrite endswith_sep_app by discriminate.
    change ("/" ++ course) with (String "/" course).
    destruct course as [|a r] eqn:Hcourse; [now contradiction Hc|].
    change (endswith_sep (String "/" (String a r)))
      with (endswith_sep (String a r)).
    destruct (endswith_sep (String a r)) eqn:He; [|reflexivity].
    now apply endswith_sep_In in He. }
  unfold join_step at 1. rewrite Hne2, Hend2.
  destruct (startswith_sep name) eqn:Hs.
  - now apply startswith_sep_In in Hs.
  - simpl. now rewrite !str_app_assoc.
Qed.

(** X16. For parameters without a separator and a course code that is not
    empty, the path served and removed is the root's documents directory,
    then the course code, then the file name; two such pairs of
    parameters name the same path only if they are equal, so the disk
    step of a deletion never removes the file of another document. *)
Theorem X16_paths_of_route_parameters
        (E : Env) (course name course' name' : string) :
  course <> "" -> no_sep course -> no_sep name ->
  course' <> "" -> no_sep course' -> no_sep name' ->
  document_path E course name
  = os_path_join (ROOT_DIR E) ["documents"] ++ "/" ++ course ++ "/" ++ name
  /\ (document_path E course name = document_path E course' name' ->
      course = course' /\ name = name').
Proof.
  intros Hc Hnc Hnn Hc' Hnc' Hnn'.
  split; [now apply document_path_closed|].
  rewrite !document_path_closed by assumption.
  intros H. apply append_inv_head in H.
  injection H as H.
  apply (f_equal chars) in H. rewrite !chars_append in H. simpl in H.
  apply split_at_last in H; try assumption.
  destruct H as [H1 H2]. split; now apply chars_inj.
Qed.

End Paths.

(** X15 on three names. *)
Lemma X15_media_type_by_name_witness :
  fr_media_type (Embedder.search_documents Demo.env "CSCI101L" "ectureNotes.pdf")
  = "application/pdf"
  /\ fr_media_type (Embedder.search_documents Demo.env "MATH2000" "week1.pptx")
     = "application/vnd.openxmlformats-officedocument.presentationml.presentation"
  /\ fr_media_type (Embedder.search_documents Demo.env "MATH2000" "readme.txt")
     = "application/vnd.ms-powerpoint".
Proof.
  split; [|split].
  - apply (X15_media_type_by_name Demo.env "CSCI101L" "ectureNotes.pdf").
    now exists "ectureNotes.".
  - apply (X15_media_type_by_name Demo.env "MATH2000" "week1.pptx").
    now exists "week1.".
  - apply (X15_media_type_by_name Demo.env "MATH2000" "readme.txt");
      intros [q Hq];
      apply (f_equal (fun s => hd_error (rev (PyStr.chars s)))) in Hq;
      rewrite chars_append, rev_app_distr in Hq; simpl in Hq; discriminate Hq.
Defined.

(** X16 on the demo paths. *)
Lemma X16_paths_of_route_parameters_witness :
  Embedder.document_path Demo.env "CSCI101L" "ectureNotes.pdf"
  = "/srv/teachgpt/documents/CSCI101L/ectureNotes.pdf"
  /\ (Embedder.document_path Demo.env "CSCI101L" "ectureNotes.pdf"
      = Embedder.document_path Demo.env "MATH2000" "ectureNotes.pdf" ->
      "CSCI101L" = "MATH2000" /\ "ectureNotes.pdf" = "ectureNotes.pdf").
Proof.
  apply (X16_paths_of_route_parameters Demo.env
           "CSCI101L" "ectureNotes.pdf" "MATH2000" "ectureNotes.pdf");
    try discriminate; unfold PyStr.no_sep; simpl; intuition discriminate.
Defined.

(** ** Edges of ingestion *)

Section IngestionEdges.

Import PyStr Embedder.

(** X17. No rollback of a half-completed add: when the vector store took
    the chunks of a file and the registry then refuses the row, the file
    is Failed, its chunks stay in the vector store under their
    identifiers, the registry is as before, and the pair is still not
    registered, so that a retry is not rejected as a duplicate. *)
Theorem X17_failed_commit_leaves_chunks
        (E : Env) (user : User) (st : State) (file : UploadFile)
        (content : string) :
  extract E file = Some content ->
  ~ registered st file ->
  collection_add_raises E (collection st)
    (chunk_batch E (set_content (new_result_dict file) content) content)
  = false ->
  db_commit_raises E (db st)
    (document_row E st (set_content (new_result_dict file) content) user)
  = true ->
  let rd := set_content (new_result_dict file) content in
  let o := embed_one E user st file in
  is_failed o = true
  /\ collection (state_after o)
     = Chroma.add (collection st) (chunk_batch E rd content)
  /\ (forall i, In i (stored_ids E rd) -> holds_id (state_after o) i)
  /\ db (state_after o) = db st
  /\ ~ registered (state_after o) file.
Proof.
  intros Hex Hnreg Hadd Hcommit rd o.
  assert (Hfirst : Registry.first_match (db st)
                     (rd_course_code rd) (rd_filename rd) = None).
  { destruct (Registry.first_match _ _ _) eqn:Hf; [|reflexivity].
    exfalso. apply Hnreg. apply (first_match_found (db st)).
    unfold rd in Hf. simpl in Hf. simpl. now rewrite Hf. }
  assert (Ho : o = Failed (tick (set_collection st
                 (Chroma.add (collection st) (chunk_batch E rd content))))).
  { unfold o, embed_one. rewrite Hex. fold rd. rewrite Hfirst.
    rewrite (add_document_cases E user st rd content eq_refl).
    fold rd in Hadd, Hcommit. now rewrite Hadd, Hcommit. }
  rewrite Ho. simpl.
  split; [reflexivity|]. split; [reflexivity|]. split; [|split].
  - intros i Hi. unfold stored_ids in Hi. simpl in Hi.
    rewrite <- (batch_ids E rd content) in Hi. apply in_map_iff in Hi.
    destruct Hi as (e & Hid & Hin).
    exists e. split; [|exact Hid]. simpl. now apply add_holds_batch.
  - reflexivity.
  - exact Hnreg.
Qed.

(** X18. A file name of at most 8 characters is all course code: the
    document name is empty, so the chunks are stored with an empty source
    and their identifiers are the name followed by two dashes and the
    chunk number. *)
Theorem X18_short_file_name (file : UploadFile) (i : nat) :
  String.length (filename file) <= 8 ->
  rd_course_code (new_result_dict file) = filename file
  /\ rd_filename (new_result_dict file) = ""
  /\ chunk_id (new_result_dict file) i = filename file ++ "--" ++ str_of_nat i.
Proof.
  intros Hlen.
  destruct (result_dict_chars file) as [Hc Hn].
  assert (Hcode : rd_course_code (new_result_dict file) = filename file).
  { apply chars_inj. rewrite Hc. apply firstn_all2.
    now rewrite chars_length. }
  assert (Hname : rd_filename (new_result_dict file) = "").
  { apply chars_inj. rewrite Hn. apply skipn_all2.
    now rewrite chars_length. }
  split; [exact Hcode|]. split; [exact Hname|].
  unfold chunk_id. rewrite Hcode, Hname. simpl.
  now rewrite str_app_assoc.
Qed.

End IngestionEdges.

(** X17 with a foreign key on the course: the commit of an upload for an
    unknown course raises, the commit of other uploads does not. *)
Lemma X17_failed_commit_leaves_chunks_witness :
  let o :=
    Embedder.embed_one Demo.env_foreign_key Demo.alice Demo.st0
      Demo.unknown_course in
  Embedder.is_failed o = true
  /\ map entry_id (collection (Embedder.state_after o))
     = ["PHYS3000-intro.pdf-0"]
  /\ db (Embedder.state_after o) = [].
Proof.
  destruct (X17_failed_commit_leaves_chunks Demo.env_foreign_key Demo.alice
              Demo.st0 Demo.unknown_course "intro")
    as (Hfailed & Hcoll & _ & Hdb & _).
  - reflexivity.
  - intros (row & [] & _).
  - reflexivity.
  - reflexivity.
  - split; [exact Hfailed|]. split; [|exact Hdb].
    rewrite Hcoll. reflexivity.
Defined.

(** X18 on a five-character name. *)
Lemma X18_short_file_name_witness :
  rd_course_code (new_result_dict Demo.short_name) = "a.pdf"
  /\ rd_filename (new_result_dict Demo.short_name) = ""
  /\ Embedder.chunk_id (new_result_dict Demo.short_name) 3 = "a.pdf--3".
Proof.
  apply (X18_short_file_name Demo.short_name 3). simpl. lia.
Defined.

(** ** Uploads, other courses, and undoing an upload *)

Section Isolation.

Import Embedder.

Variable E : Env.
Variable user : User.

Lemma filter_all {A : Type} (f : A -> bool) (l : list A) :
  (forall x, In x l -> f x = true) -> filter f l = l.
Proof.
  intros H. apply forallb_filter_id. now apply forallb_forall.
Qed.

(** Adding the chunks of a file of one course leaves the scope of every
    other course as it was, entry for entry. *)
Lemma add_keeps_other_scopes (coll : Chroma.t) (file : UploadFile)
      (content course : string) :
  well_keyed coll ->
  rd_course_code (new_result_dict file) <> course ->
  Chroma.scope
    (Chroma.add coll
       (chunk_batch E (set_content (new_result_dict file) content) content))
    course
  = Chroma.scope coll course.
Proof.
  intros Hwk Hother. unfold Chroma.scope, Chroma.add.
  rewrite filter_app, filter_comm.
  rewrite (filter_none _ (chunk_batch E _ content)).
  - rewrite app_nil_r. apply filter_all.
    intros e He. apply filter_In in He. destruct He as [He Hc].
    apply String.eqb_eq in Hc. apply negb_true_iff.
    apply (other_pair_not_in_batch E coll); auto.
    unfold entry_pair, dict_pair. intros Heq. injection Heq as Heq _.
    apply Hother. exact (eq_trans (eq_sym Heq) Hc).
  - intros e He. apply chunk_batch_entries in He.
    destruct He as (_ & _ & Hc). simpl in Hc.
    apply String.eqb_neq. rewrite Hc. exact Hother.
Qed.

Lemma outcomes_keep_other_scopes (files : list UploadFile) (course : string) :
  forall st : State,
    well_keyed (collection st) ->
    (forall file, In file files ->
                  rd_course_code (new_result_dict file) <> course) ->
    Chroma.scope (collection (last_state st (outcomes E user st files))) course
    = Chroma.scope (collection st) course.
Proof.
  induction files as [|file rest IH]; intros st Hwk Hother; simpl;
    [reflexivity|].
  pose proof (embed_one_keeps_well_keyed E user st file Hwk) as Hwk'.
  assert (Hstep : Chroma.scope
                    (collection (state_after (embed_one E user st file))) course
                  = Chroma.scope (collection st) course).
  { destruct (embed_one_collection E user st file) as [-> | (content & ->)];
      [reflexivity|].
    apply add_keeps_other_scopes; auto. apply Hother. now left. }
  destruct (is_duplicate (embed_one E user st file)); simpl.
  - exact Hstep.
  - rewrite IH; auto. intros g Hg. apply Hother. now right.
Qed.

(** X19. Uploads for some courses do not change what a query scoped to
    another course returns: in a store keyed by upload, if no file of the
    batch has the course code asked for, the query gives the same answer
    after the request as before it, for every message. *)
Theorem X19_upload_keeps_other_course_answers
        (files : list UploadFile) (st : State) (message course : string) :
  well_keyed (collection st) ->
  (forall file, In file files ->
                rd_course_code (new_result_dict file) <> course) ->
  query E (snd (embed_file E files user st)) message course
  = query E st message course.
Proof.
  intros Hwk Hother.
  rewrite !query_value. unfold Chroma.nearest.
  unfold embed_file. rewrite embed_loop_outcomes. simpl.
  now rewrite outcomes_keep_other_scopes.
Qed.

(** X20. Deleting an accepted upload by its document name undoes it in
    both stores: if, before the upload, no row and no entry carried that
    document name and the store was keyed by upload, then after the
    upload and the deletion the registry and the vector store are what
    they were before the upload, whatever the deletion answers about the
    file on disk. *)
Theorem X20_delete_undoes_upload
        (st st' : State) (file : UploadFile) (rd : ResultDict) (course : string) :
  embed_one E user st file = Accepted rd st' ->
  well_keyed (collection st) ->
  (forall row, In row (db st) -> document_name row <> rd_filename rd) ->
  (forall e, In e (collection st) ->
             source (entry_metadata e) <> rd_filename rd) ->
  let st'' := snd (delete_document E st' course (rd_filename rd)) in
  db st'' = db st /\ collection st'' = collection st.
Proof.
  intros Hacc Hwk Hrows Hentries st''.
  destruct (delete_document_stores E st' course (rd_filename rd))
    as [Hdb Hcoll].
  fold st'' in Hdb, Hcoll.
  pose proof (embed_one_rows E user st file) as Hrow.
  rewrite Hacc in Hrow. destruct Hrow as (row & Hdb' & Hpair & _).
  unfold pair_of, dict_pair in Hpair. injection Hpair as _ Hname.
  destruct (embed_one_collection E user st file) as [Hsame | (content & Hadd)];
    rewrite Hacc in *; simpl in *.
  - split.
    + rewrite Hdb, Hdb'. unfold Registry.delete_by_name.
      rewrite filter_app. simpl.
      rewrite Hname, String.eqb_refl. simpl. rewrite app_nil_r.
      apply filter_all. intros x Hx. apply negb_true_iff, String.eqb_neq.
      now apply Hrows.
    + rewrite Hcoll, Hsame. unfold Chroma.delete_where_source.
      apply filter_all. intros e He. apply negb_true_iff, String.eqb_neq.
      now apply Hentries.
  - apply embed_one_accepted in Hacc.
    destruct Hacc as (Hc & Hn & _).
    split.
    + rewrite Hdb, Hdb'. unfold Registry.delete_by_name.
      rewrite filter_app. simpl.
      rewrite Hname, String.eqb_refl. simpl. rewrite app_nil_r.
      apply filter_all. intros x Hx. apply negb_true_iff, String.eqb_neq.
      now apply Hrows.
    + rewrite Hcoll, Hadd. unfold Chroma.delete_where_source, Chroma.add.
      rewrite filter_app.
      rewrite (filter_none _ (chunk_batch E _ content)).
      * rewrite app_nil_r.
        rewrite (filter_all _ (collection st)).
        -- apply filter_all. intros e He.
           apply negb_true_iff, String.eqb_neq. now apply Hentries.
        -- intros e He. apply negb_true_iff.
           apply (other_pair_not_in_batch E (collection st)); auto.
           unfold entry_pair, dict_pair. intros Heq. injection Heq as _ Heq.
           apply (Hentries e He). rewrite Heq. now symmetry.
      * intros e He. apply chunk_batch_entries in He.
        destruct He as (_ & Hs & _). simpl in Hs.
        apply negb_false_iff, String.eqb_eq. rewrite Hs. now symmetry.
Qed.

End Isolation.

(** X19 on the demo store: slides for MATH2000 do not change the answer
    for CSCI101L. *)
Lemma X19_upload_keeps_other_course_answers_witness :
  let st1 :=
    snd (Embedder.embed_file Demo.env [Demo.notes] Demo.alice Demo.st0) in
  Embedder.query Demo.env
    (snd (Embedder.embed_file Demo.env [Demo.slides; Demo.readme]
            Demo.alice st1))
    "lecture one" "CSCI101L"
  = Embedder.query Demo.env st1 "lecture one" "CSCI101L"
  /\ Embedder.query Demo.env st1 "lecture one" "CSCI101L"
     = Some ("lecture one", "ectureNotes.pdf").
Proof.
  split; [|reflexivity].
  apply (X19_upload_keeps_other_course_answers Demo.env Demo.alice
           [Demo.slides; Demo.readme]).
  - intros e [<- | []]. exists Demo.notes, 0. split; reflexivity.
  - intros file [<- | [<- | []]]; discriminate.
Defined.

(** X20 on the demo store: the slides uploaded after the notes, then
    deleted under a course code they never had. *)
Lemma X20_delete_undoes_upload_witness :
  let st1 :=
    snd (Embedder.embed_file Demo.env [Demo.notes] Demo.alice Demo.st0) in
  let st2 :=
    Embedder.state_after
      (Embedder.embed_one Demo.env Demo.alice st1 Demo.slides) in
  let st3 :=
    snd (Embedder.delete_document Demo.env st2 "CSCI101L" "week1.pptx") in
  List.length (db st2) = 2
  /\ db st3 = db st1 /\ collection st3 = collection st1.
Proof.
  split; [reflexivity|].
  apply (X20_delete_undoes_upload Demo.env Demo.alice
           (snd (Embedder.embed_file Demo.env [Demo.notes] Demo.alice Demo.st0))
           _ Demo.slides _ "CSCI101L" eq_refl).
  - intros e [<- | []]. exists Demo.notes, 0. split; reflexivity.
  - intros row [<- | []]; discriminate.
  - intros e [<- | []]; discriminate.
Defined.
